(** * ManySStuBs4J to PLUR: the converter and the JSON extractor

    A shallow embedding of [plur/stage_1/manysstubs4j_dataset.py]:
    - [ManySStuBs4JDataset.raw_data_to_graph_to_output_example], which turns
      a raw record (split, tokens, label) into a chain graph, runs the
      transformation hooks, validates, and runs the filter hooks;
    - [JsonExtractor._patch_to_source_and_target_tokens] and
      [JsonExtractor._raw_data_dict_generator], which turn the patches of a
      JSON file into raw records.

    Python integers are [Z], Python [str] is [string], lists are [list],
    exceptions are the left summand of a sum, and the code's effects (calls
    of the hooks, of the tokenizer and of the split generator, and the
    records a generator yields) are recorded in a state that is threaded
    through a small state-and-exception monad. *)

From Stdlib Require Import String Ascii List ZArith Bool Lia.
Import ListNotations.
Open Scope string_scope.
Open Scope Z_scope.
Open Scope list_scope.

Set Implicit Arguments.

(** ** Python built-ins used by the module *)

(** [len(l)]. *)
Definition len {A : Type} (l : list A) : Z := Z.of_nat (length l).

(** [range(n)]: empty when [n <= 0]. *)
Definition range (n : Z) : list Z := map Z.of_nat (seq 0 (Z.to_nat n)).

(** [enumerate(l)], counting from [start]. *)
Fixpoint enumerate_from {A : Type} (start : Z) (l : list A) : list (Z * A) :=
  match l with
  | [] => []
  | x :: rest => (start, x) :: enumerate_from (start + 1) rest
  end.

Definition enumerate {A : Type} (l : list A) : list (Z * A) :=
  enumerate_from 0 l.

(** [line[1:]]: the string without its first character; [''[1:]] is ['']. *)
Definition slice_from_1 (line : string) : string :=
  match line with
  | EmptyString => EmptyString
  | String _ rest => rest
  end.

(** [''.join(parts)]. *)
Definition join_empty (parts : list string) : string := String.concat "" parts.

(** ** The data of the module *)

(** A token as the extractor stores it: [(type(token).__name__, token.value)]. *)
Definition Token : Type := string * string.

(** Modelled from the spec: the split labels of section 3 (RawRecord,
    "enum: train|validation|test"); the split generator itself
    ([PlurDataset.get_random_split]) is not under src/. *)
Inductive Split : Type := train | validation | test.

(** The dictionary a raw record is: keys ['split'], ['tokens'], ['label']. *)
Record RawData : Type := mkRawData {
  raw_split : Split;
  raw_tokens : list Token;
  raw_label : string
}.

(** Modelled from the spec: a node of [GraphToOutputExample]
    (plur/utils/graph_to_output_example.py is not under src/): an integer
    id, a type tag and a value (section 3). *)
Record Node : Type := mkNode {
  node_id : Z;
  node_type : string;
  node_value : string
}.

(** Modelled from the spec: an edge of [GraphToOutputExample], a
    (source_id, target_id, edge_type) triple (section 3). *)
Record Edge : Type := mkEdge {
  edge_source : Z;
  edge_target : Z;
  edge_type : string
}.

(** Modelled from the spec: the output of a [GraphToOutputExample]; this
    dataset only sets a class label (section 3). *)
Inductive GraphOutput : Type := ClassOutput (label : string).

(** Modelled from the spec: the [GraphToOutputExample] container of
    section 3: nodes in insertion order, edges in insertion order
    (duplicates permitted), and at most one output. *)
Record GraphToOutputExample : Type := mkGraph {
  nodes : list Node;
  edges : list Edge;
  output : option GraphOutput
}.

(** The exceptions that can leave the two classes. [LexerError] is not
    among them: the extractor catches it (see [lexed] below). *)
Inductive exn : Type :=
| DuplicateNodeError
| OutputAlreadySetError
| GraphToOutputExampleNotValidError (g : GraphToOutputExample)
| IndexError
| UnidiffParseError.

(** ** A state-and-exception monad

    [M St A]: a computation that reads and updates a state [St] and either
    raises or returns an [A]. The state survives a raise, as the effects of
    a Python function that raises are not undone. *)
Definition M (St A : Type) : Type := St -> St * (exn + A).

Definition ret {St A : Type} (a : A) : M St A := fun s => (s, inr a).

Definition bind {St A B : Type} (m : M St A) (k : A -> M St B) : M St B :=
  fun s =>
    match m s with
    | (s', inl e) => (s', inl e)
    | (s', inr a) => k a s'
    end.

Definition raise {St A : Type} (e : exn) : M St A := fun s => (s, inl e).

(** A call of a method that may raise and touches no state of ours. *)
Definition lift {St A : Type} (r : exn + A) : M St A := fun s => (s, r).

Definition modify {St : Type} (f : St -> St) : M St unit :=
  fun s => (f s, inr tt).

Declare Scope monad_scope.
Delimit Scope monad_scope with monad.
Notation "x <- m ;; k" := (bind m (fun x => k))
  (at level 61, m at next level, right associativity) : monad_scope.
Notation "m ;; k" := (bind m (fun _ => k))
  (at level 61, right associativity) : monad_scope.
Notation "' pat <- m ;; k" := (bind m (fun x => match x with pat => k end))
  (at level 61, pat pattern, m at next level, right associativity) : monad_scope.
Open Scope monad_scope.

(** ** GraphToOutputExample *)

Module Graph.

(** Modelled from the spec: [GraphToOutputExample()] creates an empty
    graph (section 3, lifecycle). *)
Definition empty : GraphToOutputExample :=
  {| nodes := []; edges := []; output := None |}.

Definition node_ids (g : GraphToOutputExample) : list Z :=
  map node_id (nodes g).

Definition has_id (g : GraphToOutputExample) (i : Z) : bool :=
  existsb (Z.eqb i) (node_ids g).

(** Modelled from the spec: [add_node(id, type, value)] appends a node and
    fails with [DuplicateNodeError] if the id is already present; the
    dense-range check is left to validation, as section 4.1 allows. *)
Definition add_node (g : GraphToOutputExample) (id : Z) (ty val : string)
  : exn + GraphToOutputExample :=
  if has_id g id then inl DuplicateNodeError
  else inr {| nodes := nodes g ++ [mkNode id ty val];
              edges := edges g;
              output := output g |}.

(** Modelled from the spec: [add_edge(source_id, target_id, edge_type)]
    records an edge; the edge type is not from a closed set (section
    4.1). *)
Definition add_edge (g : GraphToOutputExample) (src tgt : Z) (ty : string)
  : GraphToOutputExample :=
  {| nodes := nodes g;
     edges := edges g ++ [mkEdge src tgt ty];
     output := output g |}.

(** Modelled from the spec: [add_class_output(label)] fails with
    [OutputAlreadySetError] if an output was already assigned (section
    4.1). *)
Definition add_class_output (g : GraphToOutputExample) (label : string)
  : exn + GraphToOutputExample :=
  match output g with
  | Some _ => inl OutputAlreadySetError
  | None => inr {| nodes := nodes g;
                   edges := edges g;
                   output := Some (ClassOutput label) |}
  end.

(** Modelled from the spec: [get_nodes()] returns the ordered sequence of
    nodes as currently populated (section 4.1). *)
Definition get_nodes (g : GraphToOutputExample) : list Node := nodes g.

Fixpoint nodupb (l : list Z) : bool :=
  match l with
  | [] => true
  | x :: rest => negb (existsb (Z.eqb x) rest) && nodupb rest
  end.

(** Modelled from the spec: [check_if_valid()] is a pure predicate, true
    iff (a) every edge endpoint is the id of a node, (b) an output is set,
    and (c) the node ids are exactly 0..N-1 for N nodes (sections 3 and
    8.1). *)
Definition check_if_valid (g : GraphToOutputExample) : bool :=
  forallb (fun e => has_id g (edge_source e) && has_id g (edge_target e))
          (edges g)
  && (match output g with Some _ => true | None => false end)
  && forallb (fun i => (0 <=? i) && (i <? len (nodes g))) (node_ids g)
  && nodupb (node_ids g).

End Graph.

(** ** ManySStuBs4JDataset.raw_data_to_graph_to_output_example *)

(** The calls the converter makes on the graph it has built, in the order
    it makes them: the [i]-th transformation hook, [check_if_valid], the
    [i]-th filter hook, each with the graph it is called on. *)
Inductive Call : Type :=
| CallTransformation (i : nat) (g : GraphToOutputExample)
| CallCheckIfValid (g : GraphToOutputExample)
| CallFilter (i : nat) (g : GraphToOutputExample).

(** The dictionary the converter returns: keys ['split'] and
    ['GraphToOutputExample'] ([None] when a filter rejected the graph). *)
Record OutputExample : Type := mkOutputExample {
  out_split : Split;
  out_GraphToOutputExample : option GraphToOutputExample
}.

Module ManySStuBs4JDataset.

Definition Conv (A : Type) : Type := M (list Call) A.

Definition called (c : Call) : Conv unit := modify (fun log => log ++ [c]).

(** [for index, (token_type, token_value) in enumerate(tokens):
       graph_to_output_example.add_node(index, token_type, token_value)] *)
Fixpoint add_token_nodes (items : list (Z * Token)) (g : GraphToOutputExample)
  : Conv GraphToOutputExample :=
  match items with
  | [] => ret g
  | (index, (token_type, token_value)) :: rest =>
      g' <- lift (Graph.add_node g index token_type token_value) ;;
      add_token_nodes rest g'
  end.

(** [for i in range(len(graph_to_output_example.get_nodes()) - 1):
       graph_to_output_example.add_edge(i, i+1, 'NEXT_TOKEN')];
    the range is computed once, before the first edge is added. *)
Fixpoint add_chain_edges (indices : list Z) (g : GraphToOutputExample)
  : GraphToOutputExample :=
  match indices with
  | [] => g
  | i :: rest => add_chain_edges rest (Graph.add_edge g i (i + 1) "NEXT_TOKEN")
  end.

(** Lines 165-177: the graph as it stands before the first hook runs. *)
Definition build_chain (tokens : list Token) (label : string)
  : Conv GraphToOutputExample :=
  let graph_to_output_example := Graph.empty in
  g <- add_token_nodes (enumerate tokens) graph_to_output_example ;;
  let g := add_chain_edges (range (len (Graph.get_nodes g) - 1)) g in
  lift (Graph.add_class_output g label).

Section Hooks.

(** [self.transformation_funcs] and [self.filter_funcs]: hooks are
    functions of the graph alone, (graph -> graph) and (graph -> bool),
    that return. *)
Variable transformation_funcs : list (GraphToOutputExample -> GraphToOutputExample).
Variable filter_funcs : list (GraphToOutputExample -> bool).

(** [for transformation_fn in self.transformation_funcs:
       graph_to_output_example = transformation_fn(graph_to_output_example)] *)
Fixpoint apply_transformations (i : nat)
    (fs : list (GraphToOutputExample -> GraphToOutputExample))
    (g : GraphToOutputExample) : Conv GraphToOutputExample :=
  match fs with
  | [] => ret g
  | transformation_fn :: rest =>
      called (CallTransformation i g) ;;
      apply_transformations (S i) rest (transformation_fn g)
  end.

(** [for filter_fn in self.filter_funcs:
       if not filter_fn(graph_to_output_example):
         graph_to_output_example = None
         break] *)
Fixpoint apply_filters (i : nat) (fs : list (GraphToOutputExample -> bool))
    (g : GraphToOutputExample) : Conv (option GraphToOutputExample) :=
  match fs with
  | [] => ret (Some g)
  | filter_fn :: rest =>
      called (CallFilter i g) ;;
      if negb (filter_fn g) then ret None
      else apply_filters (S i) rest g
  end.

(** Lines 179-192: hooks, validation, filters, and the returned
    dictionary. *)
Definition finish (split : Split) (g : GraphToOutputExample)
  : Conv OutputExample :=
  g <- apply_transformations 0 transformation_funcs g ;;
  called (CallCheckIfValid g) ;;
  if negb (Graph.check_if_valid g)
  then raise (GraphToOutputExampleNotValidError g)
  else
    res <- apply_filters 0 filter_funcs g ;;
    ret {| out_split := split; out_GraphToOutputExample := res |}.

Definition raw_data_to_graph_to_output_example (raw_data : RawData)
  : Conv OutputExample :=
  let split := raw_split raw_data in
  let tokens := raw_tokens raw_data in
  let label := raw_label raw_data in
  g <- build_chain tokens label ;;
  finish split g.

(** One call of the converter, from an empty call log. *)
Definition convert (raw_data : RawData) : list Call * (exn + OutputExample) :=
  raw_data_to_graph_to_output_example raw_data [].

End Hooks.

End ManySStuBs4JDataset.

(** ** JsonExtractor *)

(** What running [javalang.tokenizer.tokenize(text)] to its end gives: all
    the tokens, or a [LexerError] raised after some tokens were seen. *)
Inductive lexed : Type :=
| Tokens (tokens : list Token)
| LexerError (seen : list Token).

(** A hunk as the extractor reads it from unidiff: [hunk.source] and
    [hunk.target], the lines before and after the change, each with its
    diff marker as first character. *)
Record Hunk : Type := mkHunk {
  source : list string;
  target : list string
}.

(** A changed file of a [unidiff.PatchSet]: its hunks. *)
Definition PatchedFile : Type := list Hunk.

(** An object of the JSON array: keys ['fixPatch'] and ['bugType']. *)
Record JsonData : Type := mkJsonData {
  fixPatch : string;
  bugType : string
}.

(** What the extractor does besides computing, in the order it does it: it
    hands a text to the tokenizer, draws a split, yields a record. *)
Inductive Effect : Type :=
| Tokenized (text : string)
| RandomSplit (s : Split)
| Yielded (r : RawData).

(** The state the extractor runs in: the state of the split generator and
    the effects so far. *)
Record ExtractorState (Rng : Type) : Type := mkExtractorState {
  rng : Rng;
  trace : list Effect
}.

(** The records among the effects, in the order they were yielded. *)
Fixpoint emitted (tr : list Effect) : list RawData :=
  match tr with
  | [] => []
  | Yielded r :: rest => r :: emitted rest
  | _ :: rest => emitted rest
  end.

(** The splits among the effects, in the order they were drawn. *)
Fixpoint drawn (tr : list Effect) : list Split :=
  match tr with
  | [] => []
  | RandomSplit s :: rest => s :: drawn rest
  | _ :: rest => drawn rest
  end.

(** The texts among the effects, in the order the tokenizer got them. *)
Fixpoint tokenized (tr : list Effect) : list string :=
  match tr with
  | [] => []
  | Tokenized text :: rest => text :: tokenized rest
  | _ :: rest => tokenized rest
  end.

(** [l[0]]: raises [IndexError] on an empty sequence. *)
Definition index_0 {St A : Type} (l : list A) : M St A :=
  match l with
  | [] => raise IndexError
  | x :: _ => ret x
  end.

Module JsonExtractor.

Section Extractor.

(** The collaborators: [self.random_split_fn], a function of the
    generator state that returns a split and the next state;
    [unidiff.PatchSet], which parses or raises; and
    [javalang.tokenizer.tokenize]. *)
Variable Rng : Type.
Variable random_split_fn : Rng -> Split * Rng.
Variable PatchSet : string -> exn + list PatchedFile.
Variable tokenize : string -> lexed.

Definition Ext (A : Type) : Type := M (ExtractorState Rng) A.

Definition effect (e : Effect) : Ext unit :=
  modify (fun st => {| rng := rng st; trace := trace st ++ [e] |}).

(** [self.random_split_fn()] *)
Definition call_random_split_fn : Ext Split :=
  fun st =>
    let (s, next) := random_split_fn (rng st) in
    ({| rng := next; trace := trace st ++ [RandomSplit s] |}, inr s).

(** The loop [for token in javalang.tokenizer.tokenize(text): ...]
    run to its end. *)
Definition call_tokenize (text : string) : Ext lexed :=
  effect (Tokenized text) ;; ret (tokenize text).

(** [''.join([line[1:] for line in lines])] *)
Definition strip_markers (lines : list string) : string :=
  join_empty (map slice_from_1 lines).

Definition _patch_to_source_and_target_tokens (patch_str : string)
  : Ext (list Token * list Token) :=
  patch <- lift (PatchSet patch_str) ;;
  file <- index_0 patch ;;
  hunk <- index_0 file ;;
  let source := strip_markers (source hunk) in
  let target := strip_markers (target hunk) in
  (* try: *)
  r <- call_tokenize source ;;
  match r with
  | LexerError _ => ret ([], [])         (* except LexerError *)
  | Tokens source_tokens =>
      r <- call_tokenize target ;;
      match r with
      | LexerError _ => ret ([], [])     (* except LexerError *)
      | Tokens target_tokens => ret (source_tokens, target_tokens)
      end
  end.

Definition yield (r : RawData) : Ext unit := effect (Yielded r).

(** The state [st] after the effects [es], the generator state kept. *)
Definition with_effects (st : ExtractorState Rng) (es : list Effect)
  : ExtractorState Rng :=
  {| rng := rng st; trace := trace st ++ es |}.

(** The generator, run to its end over the objects of the JSON array. *)
Fixpoint _raw_data_dict_generator (json : list JsonData) : Ext unit :=
  match json with
  | [] => ret tt
  | json_data :: rest =>
      '(source_tokens, target_tokens) <-
         _patch_to_source_and_target_tokens (fixPatch json_data) ;;
      match source_tokens with
      | [] => _raw_data_dict_generator rest          (* continue *)
      | _ :: _ =>
          split <- call_random_split_fn ;;
          yield {| raw_split := split;
                   raw_tokens := source_tokens;
                   raw_label := bugType json_data |} ;;
          split <- call_random_split_fn ;;
          yield {| raw_split := split;
                   raw_tokens := target_tokens;
                   raw_label := "NO_BUG" |} ;;
          _raw_data_dict_generator rest
      end
  end.

(** One run of the extractor over a file, from a generator state. *)
Definition extract (seed : Rng) (json : list JsonData)
  : ExtractorState Rng * (exn + unit) :=
  _raw_data_dict_generator json {| rng := seed; trace := [] |}.

(** The first [n] draws of the split generator from a state. *)
Fixpoint draws (r : Rng) (n : nat) : list Split :=
  match n with
  | O => []
  | S n' => fst (random_split_fn r) :: draws (snd (random_split_fn r)) n'
  end.

End Extractor.

End JsonExtractor.

(** ** Collaborators to run the extractor with

    The extractor is parametric in its diff parser, its tokenizer and its
    split generator. The instances below are small ones of the same
    interfaces; the examples run the extractor with them on concrete
    patches. *)
Module Demo.

Definition newline : string := String "010"%char EmptyString.

Definition is_letter (c : ascii) : bool :=
  let n := nat_of_ascii c in
  (((65 <=? n) && (n <=? 90)) || ((97 <=? n) && (n <=? 122)))%nat.

Definition is_blank (c : ascii) : bool :=
  let n := nat_of_ascii c in
  ((n =? 32) || (n =? 10) || (n =? 9) || (n =? 13))%nat.

Definition flush (word : string) (seen : list Token) : list Token :=
  match word with
  | EmptyString => seen
  | _ => seen ++ [("Identifier", word)]
  end.

Fixpoint lex (text word : string) (seen : list Token) : lexed :=
  match text with
  | EmptyString => Tokens (flush word seen)
  | String c rest =>
      if is_letter c then lex rest (word ++ String c EmptyString)%string seen
      else if is_blank c then lex rest EmptyString (flush word seen)
      else if Ascii.eqb c ";"%char
           then lex rest EmptyString (flush word seen ++ [("Separator", ";")])
           else LexerError (flush word seen)
  end.

(** A tokenizer: a run of letters is an [Identifier], [;] is a
    [Separator], blanks separate, any other character is a lexer error. *)
Definition tokenize (text : string) : lexed := lex text EmptyString [].

(** [text.splitlines(keepends=True)] for lines that end in a line feed. *)
Fixpoint splitlines (text line : string) : list string :=
  match text with
  | EmptyString =>
      match line with EmptyString => [] | _ => [line] end
  | String c rest =>
      if Ascii.eqb c "010"%char
      then (line ++ String c EmptyString)%string :: splitlines rest EmptyString
      else splitlines rest (line ++ String c EmptyString)%string
  end.

(** Apply [f] to the last element of a list, if there is one. *)
Fixpoint on_last {A : Type} (f : A -> A) (l : list A) : list A :=
  match l with
  | [] => []
  | [x] => [f x]
  | x :: rest => x :: on_last f rest
  end.

Definition add_source (s : string) (h : Hunk) : Hunk :=
  {| source := source h ++ [s]; target := target h |}.

Definition add_target (s : string) (h : Hunk) : Hunk :=
  {| source := source h; target := target h ++ [s] |}.

Definition parse_line (files : list PatchedFile) (line : string)
  : list PatchedFile :=
  if prefix "+++ " line then files ++ [[]]
  else if prefix "--- " line then files
  else if prefix "@@" line
       then on_last (fun hunks => hunks ++ [mkHunk [] []]) files
  else if prefix " " line
       then on_last (on_last (fun h => add_target line (add_source line h))) files
  else if prefix "-" line then on_last (on_last (add_source line)) files
  else if prefix "+" line then on_last (on_last (add_target line)) files
  else files.

(** A parser of unified diffs: a [+++ ] line opens a file, an [@@] line
    opens a hunk, and inside a hunk a line goes to the source, the target
    or both by its marker ([-], [+], blank). It never raises. *)
Definition PatchSet (patch_str : string) : exn + list PatchedFile :=
  inr (fold_left parse_line (splitlines patch_str EmptyString) []).

(** A seeded split generator with weights (80, 10, 10): a linear
    congruential step, and the split by the state's residue mod 100. *)
Definition random_split_fn (state : Z) : Split * Z :=
  let next := (state * 1103515245 + 12345) mod 2147483648 in
  let r := (next / 65536) mod 100 in
  ((if r <? 80 then train else if r <? 90 then validation else test), next).

Definition header : string :=
  ("--- a/F.java" ++ newline ++ "+++ b/F.java" ++ newline)%string.

(** A patch that replaces the statement [a;] by [b;]. *)
Definition patch_change : string :=
  (header ++ "@@ -1 +1 @@" ++ newline ++ "-a;" ++ newline ++ "+b;" ++ newline)%string.

(** A patch whose after-snippet does not lex. *)
Definition patch_after_fails : string :=
  (header ++ "@@ -1 +1 @@" ++ newline ++ "-a;" ++ newline ++ "+#" ++ newline)%string.

(** A patch whose before-snippet does not lex. *)
Definition patch_before_fails : string :=
  (header ++ "@@ -1 +1 @@" ++ newline ++ "-#" ++ newline ++ "+b;" ++ newline)%string.

(** A patch that only deletes a line. *)
Definition patch_deletion : string :=
  (header ++ "@@ -1 +0,0 @@" ++ newline ++ "-a;" ++ newline)%string.

(** A patch with two hunks. *)
Definition patch_two_hunks : string :=
  (header ++ "@@ -1 +1 @@" ++ newline ++ "-a;" ++ newline ++ "+b;" ++ newline
          ++ "@@ -9 +9 @@" ++ newline ++ " c;" ++ newline ++ "+d;" ++ newline)%string.

Definition extract : Z -> list JsonData -> ExtractorState Z * (exn + unit) :=
  JsonExtractor.extract random_split_fn PatchSet tokenize.

(** The same generator with a state that also counts its calls. *)
Definition counting_split_fn (state : Z * nat) : Split * (Z * nat) :=
  (fst (random_split_fn (fst state)),
   (snd (random_split_fn (fst state)), S (snd state))).

Definition object_change : JsonData :=
  {| fixPatch := patch_change; bugType := "CHANGE_IDENTIFIER" |}.

Definition object_after_fails : JsonData :=
  {| fixPatch := patch_after_fails; bugType := "CHANGE_IDENTIFIER" |}.

Definition object_before_fails : JsonData :=
  {| fixPatch := patch_before_fails; bugType := "CHANGE_IDENTIFIER" |}.

Definition object_deletion : JsonData :=
  {| fixPatch := patch_deletion; bugType := "DELETE_STATEMENT" |}.

Definition tokens_a : list Token := [("Identifier", "a"); ("Separator", ";")].

Definition tokens_b : list Token := [("Identifier", "b"); ("Separator", ";")].

Definition raw_abc : RawData :=
  {| raw_split := validation;
     raw_tokens := [("A", "x"); ("B", "y"); ("C", "z")];
     raw_label := "CHANGE_IDENTIFIER" |}.

Definition graph_abc : GraphToOutputExample :=
  {| nodes := [mkNode 0 "A" "x"; mkNode 1 "B" "y"; mkNode 2 "C" "z"];
     edges := [mkEdge 0 1 "NEXT_TOKEN"; mkEdge 1 2 "NEXT_TOKEN"];
     output := Some (ClassOutput "CHANGE_IDENTIFIER") |}.

(** A transformation hook that forgets the output of the graph. *)
Definition drop_output (g : GraphToOutputExample) : GraphToOutputExample :=
  {| nodes := nodes g; edges := edges g; output := None |}.

(** Filter hooks: keep every graph; keep graphs of at most two nodes. *)
Definition keep_all (g : GraphToOutputExample) : bool := true.

Definition at_most_two_nodes (g : GraphToOutputExample) : bool :=
  len (Graph.get_nodes g) <=? 2.

(** JSON objects as dictionaries: complete, without ['bugType'], without
    ['fixPatch']. *)
Definition dict_change : list (string * string) :=
  [("bugType", "CHANGE_IDENTIFIER"); ("fixPatch", patch_change)].

Definition dict_no_bugType : list (string * string) :=
  [("fixPatch", patch_change)].

Definition dict_no_bugType_before_fails : list (string * string) :=
  [("fixPatch", patch_before_fails)].

Definition dict_no_fixPatch : list (string * string) :=
  [("bugType", "CHANGE_IDENTIFIER")].

Definition dict_deletion : list (string * string) :=
  [("bugType", "DELETE_STATEMENT"); ("fixPatch", patch_deletion)].

End Demo.

(** ** Closed forms

    What the loops of the converter compute, written without the loops;
    the lemmas below prove that the loops compute them. *)
Module Closed.

(** The node the first loop adds for an item of [enumerate(tokens)]. *)
Definition node_of (item : Z * Token) : Node :=
  mkNode (fst item) (fst (snd item)) (snd (snd item)).

(** The edge the second loop adds for an index. *)
Definition next_token (i : Z) : Edge := mkEdge i (i + 1) "NEXT_TOKEN".

(** The graph of lines 165-177. *)
Definition chain (tokens : list Token) (label : string) : GraphToOutputExample :=
  {| nodes := map node_of (enumerate tokens);
     edges := map next_token (range (len tokens - 1));
     output := Some (ClassOutput label) |}.

(** The graph after the hooks [fs] were applied in order to [g]. *)
Definition transformed (fs : list (GraphToOutputExample -> GraphToOutputExample))
    (g : GraphToOutputExample) : GraphToOutputExample :=
  fold_left (fun g f => f g) fs g.

(** The calls of the hooks [fs], numbered from [i], starting on [g]: hook
    [k] is called on the graph the first [k] hooks made. *)
Definition transformation_calls (i : nat)
    (fs : list (GraphToOutputExample -> GraphToOutputExample))
    (g : GraphToOutputExample) : list Call :=
  map (fun k => CallTransformation (i + k) (transformed (firstn k fs) g))
      (seq 0 (length fs)).

(** What the filter loop leaves in [graph_to_output_example]. *)
Fixpoint filtered (fs : list (GraphToOutputExample -> bool))
    (g : GraphToOutputExample) : option GraphToOutputExample :=
  match fs with
  | [] => Some g
  | f :: rest => if f g then filtered rest g else None
  end.

(** How many filters the filter loop calls. *)
Fixpoint filters_called (fs : list (GraphToOutputExample -> bool))
    (g : GraphToOutputExample) : nat :=
  match fs with
  | [] => O
  | f :: rest => if f g then S (filters_called rest g) else 1%nat
  end.

(** The calls of the first [n] filters, numbered from [i], on [g]. *)
Definition filter_calls (i n : nat) (g : GraphToOutputExample) : list Call :=
  map (fun k => CallFilter (i + k) g) (seq 0 n).

Definition is_check (c : Call) : bool :=
  match c with CallCheckIfValid _ => true | _ => false end.

Definition is_filter (c : Call) : bool :=
  match c with CallFilter _ _ => true | _ => false end.

(** How often [check_if_valid] was called. *)
Definition count_checks (log : list Call) : nat :=
  length (filter is_check log).

End Closed.

(** ** The rest of the module *)

(** [posixpath.join(a, b)] for two components: an absolute [b] replaces
    [a]; otherwise [b] is appended, after a [/] unless [a] is empty or
    ends in one. *)
Fixpoint endswith_sep (s : string) : bool :=
  match s with
  | EmptyString => false
  | String c EmptyString => Ascii.eqb c "/"%char
  | String _ rest => endswith_sep rest
  end.

Definition os_path_join (a b : string) : string :=
  if prefix "/" b then b
  else if (match a with EmptyString => true | _ => false end) || endswith_sep a
       then (a ++ b)%string
       else (a ++ "/" ++ b)%string.

Module Dataset.

(** An entry of a URL table: the keys ['url'] and ['sha1sum']. *)
Record UrlEntry : Type := mkUrlEntry {
  url : string;
  sha1sum : string
}.

Definition _URLS : list (string * UrlEntry) :=
  [("sstubs.json",
    {| url := "https://zenodo.org/record/3653444/files/sstubs?download=1";
       sha1sum := "7217be8c154878c563820f53f7a5eacf6ac9c17a" |})].

Definition _URLS_LARGE : list (string * UrlEntry) :=
  [("sstubsLarge.json",
    {| url := "https://zenodo.org/record/3653444/files/sstubsLarge?download=1";
       sha1sum := "c0bfd241a3fb60e84b39a8e2a1db2975f7c2be83" |})].

(** The fields of the dataset object that this module reads or sets.
    [raw_data_dir] is set by [PlurDataset.__init__], which is not under
    src/; [urls] is the table [__init__] hands to it. *)
Record ManySStuBs4J : Type := mkManySStuBs4J {
  use_large_dataset : bool;
  urls : list (string * UrlEntry);
  raw_data_dir : string
}.

(** [__init__], lines 103-120: the flag picks the URL table. The directory
    that [PlurDataset.__init__] derives for the raw data is a parameter. *)
Definition __init__ (raw_data_dir : string) (use_large_dataset : bool)
  : ManySStuBs4J :=
  let urls := if use_large_dataset then _URLS_LARGE else _URLS in
  {| use_large_dataset := use_large_dataset;
     urls := urls;
     raw_data_dir := raw_data_dir |}.

Definition get_all_raw_data_paths (self : ManySStuBs4J) : list string :=
  let json_filename :=
    if use_large_dataset self
    then os_path_join (raw_data_dir self) "sstubsLarge.json"
    else os_path_join (raw_data_dir self) "sstubs.json" in
  [json_filename].

End Dataset.

(** ** The extractor on JSON objects as dictionaries

    [json.load] gives dictionaries, and a key may be missing: the generator
    below reads ['fixPatch'] and ['bugType'] where the source reads them,
    and [process] opens and loads the file first. *)

(** A JSON object with string values, as a list of its items. *)
Definition JsonObject : Type := list (string * string).

(** [d[key]]: [None] stands for [KeyError]. *)
Fixpoint getitem (d : JsonObject) (key : string) : option string :=
  match d with
  | [] => None
  | (k, v) :: rest => if String.eqb k key then Some v else getitem rest key
  end.

(** What can leave [process]: a [KeyError], an error of [open] or of
    [json.load], or one of the exceptions of [exn]. *)
Inductive failure : Type :=
| KeyError (key : string)
| OSError
| JSONDecodeError
| Raised (e : exn).

(** The monad of [M] with [failure] for [exn]. *)
Definition MF (St A : Type) : Type := St -> St * (failure + A).

Definition retF {St A : Type} (a : A) : MF St A := fun s => (s, inr a).

Definition bindF {St A B : Type} (m : MF St A) (k : A -> MF St B) : MF St B :=
  fun s =>
    match m s with
    | (s', inl e) => (s', inl e)
    | (s', inr a) => k a s'
    end.

(** A computation of [M] inside [MF]. *)
Definition liftM {St A : Type} (m : M St A) : MF St A :=
  fun s =>
    match m s with
    | (s', inl e) => (s', inl (Raised e))
    | (s', inr a) => (s', inr a)
    end.

Definition liftF {St A : Type} (r : failure + A) : MF St A := fun s => (s, r).

(** [json_data[key]] *)
Definition subscript {St : Type} (json_data : JsonObject) (key : string)
  : MF St string :=
  match getitem json_data key with
  | None => liftF (inl (KeyError key))
  | Some v => retF v
  end.

Notation "x <~ m ;; k" := (bindF m (fun x => k))
  (at level 61, m at next level, right associativity) : monad_scope.
Notation "' pat <~ m ;; k" := (bindF m (fun x => match x with pat => k end))
  (at level 61, pat pattern, m at next level, right associativity) : monad_scope.

Module JsonFile.

Section Extractor.

Variable Rng : Type.
Variable random_split_fn : Rng -> Split * Rng.
Variable PatchSet : string -> exn + list PatchedFile.
Variable tokenize : string -> lexed.

(** [open(file_path)] gives the text of the file or raises; [json.load]
    gives the objects of the array or raises. *)
Variable open_file : string -> failure + string.
Variable json_load : string -> failure + list JsonObject.

Definition ExtF (A : Type) : Type := MF (ExtractorState Rng) A.

(** The loop of [_raw_data_dict_generator] over the loaded objects. In
    the first dictionary display ['split'], the draw, comes before
    ['label'], the lookup of ['bugType']. *)
Fixpoint for_json_data (json : list JsonObject) : ExtF unit :=
  match json with
  | [] => retF tt
  | json_data :: rest =>
      patch_str <~ subscript json_data "fixPatch" ;;
      '(source_tokens, target_tokens) <~
         liftM (JsonExtractor._patch_to_source_and_target_tokens
                  PatchSet tokenize patch_str) ;;
      match source_tokens with
      | [] => for_json_data rest          (* continue *)
      | _ :: _ =>
          split <~ liftM (JsonExtractor.call_random_split_fn random_split_fn) ;;
          label <~ subscript json_data "bugType" ;;
          _ <~ liftM (JsonExtractor.yield {| raw_split := split;
                                            raw_tokens := source_tokens;
                                            raw_label := label |}) ;;
          split <~ liftM (JsonExtractor.call_random_split_fn random_split_fn) ;;
          _ <~ liftM (JsonExtractor.yield {| raw_split := split;
                                            raw_tokens := target_tokens;
                                            raw_label := "NO_BUG" |}) ;;
          for_json_data rest
      end
  end.

(** [_raw_data_dict_generator(json_file_reader)], run to its end. *)
Definition _raw_data_dict_generator (json_file_reader : string) : ExtF unit :=
  json <~ liftF (json_load json_file_reader) ;;
  for_json_data json.

(** [process(file_path)]: every record of the generator is yielded again,
    so the records of [process] are those of the generator. *)
Definition process (file_path : string) : ExtF unit :=
  f <~ liftF (open_file file_path) ;;
  _raw_data_dict_generator f.

End Extractor.

(** The object with both keys as the record of the two values. *)
Definition as_record (json_data : JsonObject) : option JsonData :=
  match getitem json_data "fixPatch", getitem json_data "bugType" with
  | Some patch_str, Some label => Some {| fixPatch := patch_str; bugType := label |}
  | _, _ => None
  end.

(** How a run of the generator on records ends, as a run of [process]
    ends. *)
Definition raised {A : Type} (r : exn + A) : failure + A :=
  match r with
  | inl e => inl (Raised e)
  | inr a => inr a
  end.

End JsonFile.

(** ** Closed forms for the extractor *)

Module ExtractorClosed.


(** What [_patch_to_source_and_target_tokens] returns or raises on a
    patch; it does not depend on the state it runs in. *)
Definition patch_tokens (PatchSet : string -> exn + list PatchedFile)
    (tokenize : string -> lexed) (patch_str : string)
  : exn + (list Token * list Token) :=
  snd (JsonExtractor._patch_to_source_and_target_tokens PatchSet tokenize
         patch_str {| rng := tt; trace := [] |}).

(** The texts [_patch_to_source_and_target_tokens] hands to the tokenizer
    on a patch. *)
Definition patch_texts (PatchSet : string -> exn + list PatchedFile)
    (tokenize : string -> lexed) (patch_str : string) : list string :=
  tokenized
    (trace (fst (JsonExtractor._patch_to_source_and_target_tokens PatchSet
                   tokenize patch_str {| rng := tt; trace := [] |}))).

(** The tokens and labels of the records an object gives. *)
Definition records_of (PatchSet : string -> exn + list PatchedFile)
    (tokenize : string -> lexed) (json_data : JsonData)
  : list (list Token * string) :=
  match patch_tokens PatchSet tokenize (fixPatch json_data) with
  | inr (t :: source_tokens, target_tokens) =>
      [(t :: source_tokens, bugType json_data); (target_tokens, "NO_BUG")]
  | _ => []
  end.

(** Whether the generator skips an object: its patch gives no
    before-tokens. *)
Definition skipped (PatchSet : string -> exn + list PatchedFile)
    (tokenize : string -> lexed) (json_data : JsonData) : bool :=
  match patch_tokens PatchSet tokenize (fixPatch json_data) with
  | inr ([], _) => true
  | _ => false
  end.

(** The state after the two draws and the two yields of an object with
    before-tokens. *)
Definition yield_pair {Rng : Type} (random_split_fn : Rng -> Split * Rng)
    (st : ExtractorState Rng) (source_tokens target_tokens : list Token)
    (label : string) : ExtractorState Rng :=
  let first := random_split_fn (rng st) in
  let second := random_split_fn (snd first) in
  {| rng := snd second;
     trace := trace st
              ++ [RandomSplit (fst first);
                  Yielded {| raw_split := fst first;
                             raw_tokens := source_tokens;
                             raw_label := label |};
                  RandomSplit (fst second);
                  Yielded {| raw_split := fst second;
                             raw_tokens := target_tokens;
                             raw_label := "NO_BUG" |}] |}.

(** Records in pairs: one with tokens, then one labelled NO_BUG. *)
Fixpoint paired (records : list RawData) : bool :=
  match records with
  | [] => true
  | before :: rest =>
      match rest with
      | [] => false
      | after :: rest' =>
          negb (match raw_tokens before with [] => true | _ => false end)
          && String.eqb (raw_label after) "NO_BUG"
          && paired rest'
      end
  end.

End ExtractorClosed.

(** ** A file to run [process] on *)

Module DemoFile.

(** A JSON string literal: quotes around the text, line feeds escaped. *)
Fixpoint escape (s : string) : string :=
  match s with
  | EmptyString => EmptyString
  | String c rest =>
      if Ascii.eqb c "010"%char
      then String "\"%char (String "n"%char (escape rest))
      else String c (escape rest)
  end.

Definition json_string (s : string) : string :=
  String "034"%char (escape s ++ String "034"%char EmptyString)%string.

Definition json_object (bug_type patch_str : string) : string :=
  ("{" ++ json_string "bugType" ++ ": " ++ json_string bug_type ++ ", "
       ++ json_string "fixPatch" ++ ": " ++ json_string patch_str ++ "}")%string.

(** The text of a file with two objects. *)
Definition file_text : string :=
  ("[" ++ json_object "CHANGE_IDENTIFIER" Demo.patch_change ++ ", "
       ++ json_object "DELETE_STATEMENT" Demo.patch_deletion ++ "]")%string.

(** A file system with one file, and a loader that knows its text. *)
Definition open_file (file_path : string) : failure + string :=
  if String.eqb file_path "raw_data/sstubs.json" then inr file_text
  else inl OSError.

Definition json_load (text : string) : failure + list JsonObject :=
  if String.eqb text file_text then inr [Demo.dict_change; Demo.dict_deletion]
  else inl JSONDecodeError.

End DemoFile.

(** * Properties *)

(** ** Python built-ins *)

Lemma enumerate_from_indices (A : Type) (l : list A) (start : Z) :
  0 <= start ->
  map fst (enumerate_from start l)
  = map Z.of_nat (seq (Z.to_nat start) (length l)).
Proof.
  revert start. induction l as [|x rest IH]; intros start Hstart; simpl.
  - reflexivity.
  - rewrite Z2Nat.id by assumption. f_equal.
    rewrite IH by lia. f_equal. f_equal. lia.
Qed.

Lemma enumerate_from_items (A : Type) (l : list A) (start : Z) :
  map snd (enumerate_from start l) = l.
Proof.
  revert start. induction l as [|x rest IH]; intros start; simpl.
  - reflexivity.
  - now rewrite IH.
Qed.

Lemma enumerate_indices (A : Type) (l : list A) :
  map fst (enumerate l) = range (len l).
Proof.
  unfold enumerate, range, len.
  rewrite enumerate_from_indices by lia. now rewrite Nat2Z.id.
Qed.

Lemma len_range (n : Z) : len (range n) = Z.max 0 n.
Proof.
  unfold len, range. rewrite length_map, length_seq. lia.
Qed.

(** ** The chain the converter builds *)

Module ChainFacts.
Import ManySStuBs4JDataset Closed.

Lemma has_id_fresh (g : GraphToOutputExample) (id : Z) :
  (forall j, In j (Graph.node_ids g) -> j < id) ->
  Graph.has_id g id = false.
Proof.
  intros Hlt. unfold Graph.has_id.
  destruct (existsb (Z.eqb id) (Graph.node_ids g)) eqn:E; [|reflexivity].
  apply existsb_exists in E. destruct E as [j [Hin Heq]].
  apply Z.eqb_eq in Heq. subst j. specialize (Hlt _ Hin). lia.
Qed.

(** The first loop never raises on [enumerate(tokens)]: the indices grow,
    so no id is seen twice. *)
Lemma add_token_nodes_from (tokens : list Token) :
  forall (start : Z) (g : GraphToOutputExample) (log : list Call),
    (forall j, In j (Graph.node_ids g) -> j < start) ->
    add_token_nodes (enumerate_from start tokens) g log
    = (log, inr {| nodes := nodes g ++ map node_of (enumerate_from start tokens);
                   edges := edges g;
                   output := output g |}).
Proof.
  induction tokens as [|[ty val] rest IH]; intros start g log Hlt; simpl.
  - rewrite app_nil_r. destruct g; reflexivity.
  - unfold bind, lift, Graph.add_node.
    rewrite (has_id_fresh g Hlt).
    rewrite IH.
    + simpl. rewrite <- app_assoc. reflexivity.
    + unfold Graph.node_ids. simpl. intros j Hin.
      rewrite map_app in Hin. apply in_app_or in Hin.
      destruct Hin as [Hin | Hin].
      * specialize (Hlt j Hin). lia.
      * simpl in Hin. destruct Hin as [<- | []]. lia.
Qed.

Lemma add_chain_edges_spec (indices : list Z) :
  forall g : GraphToOutputExample,
    add_chain_edges indices g
    = {| nodes := nodes g;
         edges := edges g ++ map next_token indices;
         output := output g |}.
Proof.
  induction indices as [|i rest IH]; intros g; simpl.
  - rewrite app_nil_r. destruct g; reflexivity.
  - rewrite IH. simpl. rewrite <- app_assoc. reflexivity.
Qed.

Lemma build_chain_spec (tokens : list Token) (label : string) (log : list Call) :
  build_chain tokens label log = (log, inr (chain tokens label)).
Proof.
  unfold build_chain, bind, enumerate.
  rewrite add_token_nodes_from by (simpl; intros j []).
  rewrite add_chain_edges_spec. simpl.
  unfold lift, Graph.add_class_output, Graph.get_nodes. simpl.
  unfold chain, enumerate, len.
  rewrite length_map.
  assert (Hlen : forall (l : list Token) s, length (enumerate_from s l) = length l).
  { induction l as [|x r IHl]; intros s; simpl; [reflexivity | now rewrite IHl]. }
  rewrite Hlen. reflexivity.
Qed.

Lemma chain_node_ids (tokens : list Token) (label : string) :
  map node_id (nodes (chain tokens label)) = range (len tokens).
Proof.
  simpl. rewrite map_map. simpl.
  rewrite <- enumerate_indices. reflexivity.
Qed.

Lemma chain_node_contents (tokens : list Token) (label : string) :
  map (fun n => (node_type n, node_value n)) (nodes (chain tokens label))
  = tokens.
Proof.
  simpl. rewrite map_map. simpl.
  rewrite <- (enumerate_from_items tokens 0) at 2.
  unfold enumerate. apply map_ext. intros [i [ty val]]. reflexivity.
Qed.

End ChainFacts.

(** C1. For every raw record with N tokens, the converter builds, without
    raising and before it calls any hook, a graph with exactly N nodes
    whose ids are 0..N-1 in token order and whose types and values are
    the tokens' types and texts, with exactly max(0, N-1) edges, the edge
    (i, i+1, NEXT_TOKEN) for each i in 0..N-2; the hooks, validation and
    filters then run on that graph. One token gives no edge, and the
    tokens (A,x), (B,y), (C,z) give nodes 0, 1, 2 and the edges
    (0,1,NEXT_TOKEN), (1,2,NEXT_TOKEN). *)
Theorem C1_chain_of_tokens :
  (forall (transformation_funcs : list (GraphToOutputExample -> GraphToOutputExample))
          (filter_funcs : list (GraphToOutputExample -> bool))
          (raw_data : RawData) (log : list Call),
     let tokens := raw_tokens raw_data in
     exists g : GraphToOutputExample,
       ManySStuBs4JDataset.build_chain tokens (raw_label raw_data) log = (log, inr g)
       /\ ManySStuBs4JDataset.raw_data_to_graph_to_output_example
            transformation_funcs filter_funcs raw_data log
          = ManySStuBs4JDataset.finish transformation_funcs filter_funcs
              (raw_split raw_data) g log
       /\ len (nodes g) = len tokens
       /\ map node_id (nodes g) = range (len tokens)
       /\ map (fun n => (node_type n, node_value n)) (nodes g) = tokens
       /\ len (edges g) = Z.max 0 (len tokens - 1)
       /\ edges g
          = map (fun i => mkEdge i (i + 1) "NEXT_TOKEN") (range (len tokens - 1)))
  /\ (forall (token : Token) (label : string) (log : list Call),
        ManySStuBs4JDataset.build_chain [token] label log
        = (log, inr {| nodes := [mkNode 0 (fst token) (snd token)];
                       edges := [];
                       output := Some (ClassOutput label) |}))
  /\ (forall (label : string) (log : list Call),
        ManySStuBs4JDataset.build_chain [("A", "x"); ("B", "y"); ("C", "z")] label log
        = (log, inr {| nodes := [mkNode 0 "A" "x"; mkNode 1 "B" "y"; mkNode 2 "C" "z"];
                       edges := [mkEdge 0 1 "NEXT_TOKEN"; mkEdge 1 2 "NEXT_TOKEN"];
                       output := Some (ClassOutput label) |})).
Proof.
  split; [|split].
  - intros tfs ffs raw_data log tokens.
    exists (Closed.chain tokens (raw_label raw_data)).
    split; [apply ChainFacts.build_chain_spec|].
    split.
    { unfold ManySStuBs4JDataset.raw_data_to_graph_to_output_example, bind.
      fold tokens. rewrite ChainFacts.build_chain_spec. reflexivity. }
    split.
    { rewrite <- (ChainFacts.chain_node_contents tokens (raw_label raw_data)) at 2.
      unfold len. now rewrite length_map. }
    split; [apply ChainFacts.chain_node_ids|].
    split; [apply ChainFacts.chain_node_contents|].
    split.
    { simpl. unfold len at 1. rewrite length_map. apply len_range. }
    reflexivity.
  - intros [ty val] label log. rewrite ChainFacts.build_chain_spec. reflexivity.
  - intros label log. rewrite ChainFacts.build_chain_spec. reflexivity.
Qed.

(** ** Hooks, validation and filters *)

Module HookFacts.
Import ManySStuBs4JDataset Closed.

Lemma apply_transformations_spec
    (fs : list (GraphToOutputExample -> GraphToOutputExample)) :
  forall (i : nat) (g : GraphToOutputExample) (log : list Call),
    apply_transformations i fs g log
    = (log ++ transformation_calls i fs g, inr (transformed fs g)).
Proof.
  induction fs as [|f rest IH]; intros i g log.
  - simpl. unfold ret, transformation_calls. simpl. now rewrite app_nil_r.
  - simpl. unfold bind, called, modify. rewrite IH.
    unfold transformation_calls. simpl length.
    rewrite <- cons_seq, <- seq_shift, map_cons, map_map.
    rewrite <- app_assoc. simpl. rewrite Nat.add_0_r.
    do 3 f_equal. apply map_ext. intros k. f_equal. lia.
Qed.

Lemma apply_filters_spec (fs : list (GraphToOutputExample -> bool)) :
  forall (i : nat) (g : GraphToOutputExample) (log : list Call),
    apply_filters i fs g log
    = (log ++ filter_calls i (filters_called fs g) g, inr (filtered fs g)).
Proof.
  induction fs as [|f rest IH]; intros i g log.
  - simpl. unfold ret, filter_calls. simpl. now rewrite app_nil_r.
  - simpl. unfold bind, called, modify.
    destruct (f g); simpl.
    + rewrite IH. unfold filter_calls.
      rewrite <- cons_seq, <- seq_shift, map_cons, map_map.
      rewrite <- app_assoc. simpl. rewrite Nat.add_0_r.
      do 3 f_equal. apply map_ext. intros k. f_equal. lia.
    + unfold ret, filter_calls. simpl. now rewrite Nat.add_0_r.
Qed.

Lemma filtered_all_accept (fs : list (GraphToOutputExample -> bool))
    (g : GraphToOutputExample) :
  forallb (fun f => f g) fs = true ->
  filtered fs g = Some g /\ filters_called fs g = length fs.
Proof.
  induction fs as [|f rest IH]; simpl; intros H.
  - now split.
  - apply andb_prop in H. destruct H as [Hf Hrest]. rewrite Hf.
    destruct (IH Hrest) as [-> ->]. now split.
Qed.

Lemma filtered_first_reject
    (accepting later : list (GraphToOutputExample -> bool))
    (rejecting : GraphToOutputExample -> bool) (g : GraphToOutputExample) :
  forallb (fun f => f g) accepting = true ->
  rejecting g = false ->
  filtered (accepting ++ rejecting :: later) g = None
  /\ filters_called (accepting ++ rejecting :: later) g = S (length accepting).
Proof.
  induction accepting as [|f rest IH]; simpl; intros Hacc Hrej.
  - rewrite Hrej. now split.
  - apply andb_prop in Hacc. destruct Hacc as [Hf Hrest]. rewrite Hf.
    destruct (IH Hrest Hrej) as [-> ->]. now split.
Qed.

Lemma filter_transformation_calls (i : nat)
    (fs : list (GraphToOutputExample -> GraphToOutputExample))
    (g : GraphToOutputExample) :
  filter is_check (transformation_calls i fs g) = [].
Proof.
  unfold transformation_calls.
  induction (seq 0 (length fs)) as [|k ks IH]; simpl; auto.
Qed.

Lemma filter_filter_calls (i n : nat) (g : GraphToOutputExample) :
  filter is_check (filter_calls i n g) = []
  /\ forallb is_filter (filter_calls i n g) = true.
Proof.
  unfold filter_calls.
  induction (seq 0 n) as [|k ks [IH1 IH2]]; simpl; auto.
Qed.

(** The converter from an empty log, in closed form. *)
Lemma convert_spec
    (tfs : list (GraphToOutputExample -> GraphToOutputExample))
    (ffs : list (GraphToOutputExample -> bool)) (raw_data : RawData) :
  let g := transformed tfs (chain (raw_tokens raw_data) (raw_label raw_data)) in
  convert tfs ffs raw_data
  = if Graph.check_if_valid g
    then (transformation_calls 0 tfs (chain (raw_tokens raw_data) (raw_label raw_data))
            ++ CallCheckIfValid g :: filter_calls 0 (filters_called ffs g) g,
          inr {| out_split := raw_split raw_data;
                 out_GraphToOutputExample := filtered ffs g |})
    else (transformation_calls 0 tfs (chain (raw_tokens raw_data) (raw_label raw_data))
            ++ [CallCheckIfValid g],
          inl (GraphToOutputExampleNotValidError g)).
Proof.
  intros g. unfold convert, raw_data_to_graph_to_output_example, bind.
  rewrite ChainFacts.build_chain_spec.
  unfold finish, bind. rewrite apply_transformations_spec.
  unfold called, modify. fold g.
  destruct (Graph.check_if_valid g); simpl.
  - rewrite apply_filters_spec. unfold ret.
    rewrite <- app_assoc. reflexivity.
  - reflexivity.
Qed.

End HookFacts.

Module HookLogFacts.
Import ManySStuBs4JDataset Closed.

Lemma no_check_in_transformation_calls (i : nat)
    (fs : list (GraphToOutputExample -> GraphToOutputExample))
    (g0 g : GraphToOutputExample) :
  ~ In (CallCheckIfValid g) (transformation_calls i fs g0).
Proof.
  unfold transformation_calls. intros Hin.
  apply in_map_iff in Hin. destruct Hin as [k [Heq _]]. discriminate.
Qed.

Lemma no_check_in_filter_calls (i n : nat) (g0 g : GraphToOutputExample) :
  ~ In (CallCheckIfValid g) (filter_calls i n g0).
Proof.
  unfold filter_calls. intros Hin.
  apply in_map_iff in Hin. destruct Hin as [k [Heq _]]. discriminate.
Qed.

(** The only graph [check_if_valid] is called on is the chain after all
    the transformation hooks. *)
Lemma checked_graph
    (tfs : list (GraphToOutputExample -> GraphToOutputExample))
    (ffs : list (GraphToOutputExample -> bool)) (raw_data : RawData)
    (g : GraphToOutputExample) :
  In (CallCheckIfValid g) (fst (convert tfs ffs raw_data)) ->
  g = transformed tfs (chain (raw_tokens raw_data) (raw_label raw_data)).
Proof.
  pose proof (HookFacts.convert_spec tfs ffs raw_data) as Hc.
  simpl in Hc. rewrite Hc. clear Hc.
  destruct (Graph.check_if_valid _); simpl; intros Hin;
    apply in_app_or in Hin; destruct Hin as [Hin | Hin].
  - now apply no_check_in_transformation_calls in Hin.
  - simpl in Hin. destruct Hin as [Heq | Hin]; [congruence|].
    now apply no_check_in_filter_calls in Hin.
  - now apply no_check_in_transformation_calls in Hin.
  - simpl in Hin. destruct Hin as [Heq | []]. congruence.
Qed.

Lemma only_filter_calls_pass (i n : nat) (g : GraphToOutputExample) :
  filter is_filter (filter_calls i n g) = filter_calls i n g.
Proof.
  unfold filter_calls.
  induction (seq 0 n) as [|k ks IH]; simpl; [reflexivity | now rewrite IH].
Qed.

Lemma no_filter_in_transformation_calls (i : nat)
    (fs : list (GraphToOutputExample -> GraphToOutputExample))
    (g : GraphToOutputExample) :
  filter is_filter (transformation_calls i fs g) = [].
Proof.
  unfold transformation_calls.
  induction (seq 0 (length fs)) as [|k ks IH]; simpl; auto.
Qed.

End HookLogFacts.

(** C5. For every raw record and every list of hooks, the converter calls
    [check_if_valid] exactly once, on the graph that the whole ordered
    sequence of transformation hooks made of the chain, after the last of
    their calls; it raises [GraphToOutputExampleNotValidError] (the call
    ends in that exception, nothing catches it) if and only if that call
    returns false, it raises nothing else, and when validation fails no
    filter hook is called. *)
Theorem C5_validation_once_after_transformations
    (transformation_funcs : list (GraphToOutputExample -> GraphToOutputExample))
    (filter_funcs : list (GraphToOutputExample -> bool))
    (raw_data : RawData) :
  let run := ManySStuBs4JDataset.convert transformation_funcs filter_funcs raw_data in
  exists (g0 : GraphToOutputExample) (filter_log : list Call),
    let g := Closed.transformed transformation_funcs g0 in
    ManySStuBs4JDataset.build_chain (raw_tokens raw_data) (raw_label raw_data) []
      = ([], inr g0)
    /\ fst run = Closed.transformation_calls 0 transformation_funcs g0
                 ++ CallCheckIfValid g :: filter_log
    /\ length (Closed.transformation_calls 0 transformation_funcs g0)
       = length transformation_funcs
    /\ forallb Closed.is_filter filter_log = true
    /\ Closed.count_checks (fst run) = 1%nat
    /\ (snd run = inl (GraphToOutputExampleNotValidError g)
        <-> Graph.check_if_valid g = false)
    /\ ((exists e, snd run = inl e) <-> Graph.check_if_valid g = false)
    /\ (Graph.check_if_valid g = false -> filter_log = []).
Proof.
  intros run.
  exists (Closed.chain (raw_tokens raw_data) (raw_label raw_data)).
  pose proof (HookFacts.convert_spec transformation_funcs filter_funcs raw_data) as Hc.
  simpl in Hc. fold run in Hc.
  set (g := Closed.transformed transformation_funcs
              (Closed.chain (raw_tokens raw_data) (raw_label raw_data))) in *.
  destruct (Graph.check_if_valid g) eqn:Hvalid.
  - exists (Closed.filter_calls 0 (Closed.filters_called filter_funcs g) g).
    rewrite Hc. cbv zeta. fold g. rewrite Hvalid. simpl.
    split; [apply ChainFacts.build_chain_spec|].
    split; [reflexivity|].
    split; [unfold Closed.transformation_calls; now rewrite length_map, length_seq|].
    split; [apply HookFacts.filter_filter_calls|].
    split.
    { unfold Closed.count_checks. rewrite filter_app. simpl.
      rewrite HookFacts.filter_transformation_calls.
      now rewrite (proj1 (HookFacts.filter_filter_calls _ _ _)). }
    split; [split; discriminate|].
    split; [split; [intros [e He]; discriminate | discriminate]|].
    discriminate.
  - exists []. rewrite Hc. cbv zeta. fold g. rewrite Hvalid. simpl.
    split; [apply ChainFacts.build_chain_spec|].
    split; [reflexivity|].
    split; [unfold Closed.transformation_calls; now rewrite length_map, length_seq|].
    split; [reflexivity|].
    split.
    { unfold Closed.count_checks. rewrite filter_app. simpl.
      now rewrite HookFacts.filter_transformation_calls. }
    split; [split; reflexivity|].
    split; [split; [reflexivity | intros _; eexists; reflexivity]|].
    reflexivity.
Qed.

(** C6. For every raw record whose graph passes validation: if every filter
    hook returns true on it, the converter returns the validated graph; if
    some filter hook returns false, the converter still returns (it does not
    raise) with the example set to [None], and the filter hooks called are
    exactly those up to and including the first rejecting one, in list
    order. *)
Theorem C6_filter_rejection_returns_none
    (transformation_funcs : list (GraphToOutputExample -> GraphToOutputExample))
    (filter_funcs : list (GraphToOutputExample -> bool))
    (raw_data : RawData) (g : GraphToOutputExample) :
  let run := ManySStuBs4JDataset.convert transformation_funcs filter_funcs raw_data in
  In (CallCheckIfValid g) (fst run) ->
  Graph.check_if_valid g = true ->
  (forallb (fun filter_fn => filter_fn g) filter_funcs = true ->
     snd run = inr {| out_split := raw_split raw_data;
                      out_GraphToOutputExample := Some g |}
     /\ filter Closed.is_filter (fst run)
        = Closed.filter_calls 0 (length filter_funcs) g)
  /\ (forall (accepting later : list (GraphToOutputExample -> bool))
             (rejecting : GraphToOutputExample -> bool),
        filter_funcs = accepting ++ rejecting :: later ->
        forallb (fun filter_fn => filter_fn g) accepting = true ->
        rejecting g = false ->
        snd run = inr {| out_split := raw_split raw_data;
                         out_GraphToOutputExample := None |}
        /\ filter Closed.is_filter (fst run)
           = Closed.filter_calls 0 (S (length accepting)) g).
Proof.
  intros run Hin Hvalid.
  apply HookLogFacts.checked_graph in Hin.
  pose proof (HookFacts.convert_spec transformation_funcs filter_funcs raw_data) as Hc.
  simpl in Hc. fold run in Hc. rewrite <- Hin in Hc. rewrite Hvalid in Hc.
  assert (Hlog : filter Closed.is_filter (fst run)
                 = Closed.filter_calls 0 (Closed.filters_called filter_funcs g) g).
  { rewrite Hc. simpl. rewrite filter_app. simpl.
    rewrite HookLogFacts.no_filter_in_transformation_calls.
    apply HookLogFacts.only_filter_calls_pass. }
  split.
  - intros Hall.
    destruct (HookFacts.filtered_all_accept filter_funcs g Hall) as [Hres Hn].
    rewrite Hlog, Hn. rewrite Hc. simpl. rewrite Hres. now split.
  - intros accepting later rejecting Heq Hacc Hrej.
    destruct (HookFacts.filtered_first_reject accepting later rejecting g Hacc Hrej)
      as [Hres Hn].
    rewrite <- Heq in Hres, Hn.
    rewrite Hlog, Hn. rewrite Hc. simpl. rewrite Hres. now split.
Qed.

(** C9. For every raw record on which the converter returns, the split of
    the returned dictionary is the split of the raw record, whatever the
    transformation hooks, validation and the filter hooks do. *)
Theorem C9_split_unchanged
    (transformation_funcs : list (GraphToOutputExample -> GraphToOutputExample))
    (filter_funcs : list (GraphToOutputExample -> bool))
    (raw_data : RawData) (out : OutputExample) :
  snd (ManySStuBs4JDataset.convert transformation_funcs filter_funcs raw_data)
    = inr out ->
  out_split out = raw_split raw_data.
Proof.
  pose proof (HookFacts.convert_spec transformation_funcs filter_funcs raw_data) as Hc.
  simpl in Hc. rewrite Hc.
  destruct (Graph.check_if_valid _); simpl; intros H.
  - injection H as <-. reflexivity.
  - discriminate.
Qed.

(** ** The extractor, one JSON object at a time *)

Module ExtractorFacts.
Import JsonExtractor.

Section Steps.

Variable Rng : Type.
Variable random_split_fn : Rng -> Split * Rng.
Variable PatchSet : string -> exn + list PatchedFile.
Variable tokenize : string -> lexed.

Abbreviation tokens_of := (_patch_to_source_and_target_tokens PatchSet tokenize).
Abbreviation generator := (_raw_data_dict_generator random_split_fn PatchSet tokenize).

(** What [_patch_to_source_and_target_tokens] does on a patch with a
    first hunk in a first file. *)
Lemma tokens_of_first_hunk (patch_str : string) (hunk : Hunk)
    (hunks : list Hunk) (files : list PatchedFile) (st : ExtractorState Rng) :
  PatchSet patch_str = inr ((hunk :: hunks) :: files) ->
  let before := strip_markers (source hunk) in
  let after := strip_markers (target hunk) in
  tokens_of patch_str st
  = match tokenize before with
    | LexerError _ => (with_effects st [Tokenized before], inr ([], []))
    | Tokens source_tokens =>
        match tokenize after with
        | LexerError _ =>
            (with_effects st [Tokenized before; Tokenized after], inr ([], []))
        | Tokens target_tokens =>
            (with_effects st [Tokenized before; Tokenized after],
             inr (source_tokens, target_tokens))
        end
    end.
Proof.
  intros Hparse before after.
  unfold _patch_to_source_and_target_tokens, bind, lift.
  rewrite Hparse. simpl.
  unfold call_tokenize, bind, effect, modify, ret, with_effects.
  fold before. fold after. simpl.
  destruct (tokenize before) as [source_tokens | seen]; [|reflexivity].
  destruct (tokenize after) as [target_tokens | seen]; simpl;
    rewrite <- app_assoc; reflexivity.
Qed.

(** When the tokens of the before-snippet come back empty, the generator
    goes on to the next object: no draw, no record. *)
Lemma generator_continue (json_data : JsonData) (rest : list JsonData)
    (st st' : ExtractorState Rng) (target_tokens : list Token) :
  tokens_of (fixPatch json_data) st = (st', inr ([], target_tokens)) ->
  generator (json_data :: rest) st = generator rest st'.
Proof.
  intros Htokens. simpl. unfold bind at 1. rewrite Htokens. reflexivity.
Qed.

(** When they come back non-empty, it draws and yields twice. *)
Lemma generator_yield_twice (json_data : JsonData) (rest : list JsonData)
    (st st' : ExtractorState Rng) (source_tokens target_tokens : list Token) :
  tokens_of (fixPatch json_data) st
    = (st', inr (source_tokens, target_tokens)) ->
  source_tokens <> [] ->
  let first := random_split_fn (rng st') in
  let second := random_split_fn (snd first) in
  generator (json_data :: rest) st
  = generator rest
      {| rng := snd second;
         trace := trace st'
                  ++ [RandomSplit (fst first);
                      Yielded {| raw_split := fst first;
                                 raw_tokens := source_tokens;
                                 raw_label := bugType json_data |};
                      RandomSplit (fst second);
                      Yielded {| raw_split := fst second;
                                 raw_tokens := target_tokens;
                                 raw_label := "NO_BUG" |}] |}.
Proof.
  intros Htokens Hne first second. simpl. unfold bind at 1. rewrite Htokens.
  destruct source_tokens as [|t ts]; [congruence|].
  unfold bind, call_random_split_fn, yield, effect, modify. simpl.
  subst second first.
  destruct (random_split_fn (rng st')) as [s1 r1]. simpl.
  destruct (random_split_fn r1) as [s2 r2]. simpl.
  repeat rewrite <- app_assoc. reflexivity.
Qed.

(** When parsing or indexing raises, the generator stops there. *)
Lemma generator_raise (json_data : JsonData) (rest : list JsonData)
    (st st' : ExtractorState Rng) (e : exn) :
  tokens_of (fixPatch json_data) st = (st', inl e) ->
  generator (json_data :: rest) st = (st', inl e).
Proof.
  intros Htokens. simpl. unfold bind at 1. rewrite Htokens. reflexivity.
Qed.

End Steps.

(** [_patch_to_source_and_target_tokens] neither draws a split nor looks at
    the generator state: the texts it hands over and its outcome are the
    same in every state, of every split generator. *)
Lemma tokens_of_shape (PatchSet : string -> exn + list PatchedFile)
    (tokenize : string -> lexed) (patch_str : string) :
  exists (texts : list string) (res : exn + (list Token * list Token)),
    forall (Rng : Type) (st0 : ExtractorState Rng),
      _patch_to_source_and_target_tokens PatchSet tokenize patch_str st0
      = (with_effects st0 (map Tokenized texts), res).
Proof.
  unfold _patch_to_source_and_target_tokens, bind, lift.
  destruct (PatchSet patch_str) as [e | patch].
  { exists [], (inl e). intros Rng st0. unfold with_effects. simpl.
    rewrite app_nil_r. destruct st0; reflexivity. }
  destruct patch as [|file files].
  { exists [], (inl IndexError). intros Rng st0. unfold with_effects. simpl.
    rewrite app_nil_r. destruct st0; reflexivity. }
  destruct file as [|hunk hunks].
  { exists [], (inl IndexError). intros Rng st0. unfold with_effects. simpl.
    rewrite app_nil_r. destruct st0; reflexivity. }
  simpl. unfold call_tokenize, bind, effect, modify, ret, with_effects. simpl.
  destruct (tokenize (strip_markers (source hunk))) as [source_tokens | seen].
  - destruct (tokenize (strip_markers (target hunk))) as [target_tokens | seen].
    + exists [strip_markers (source hunk); strip_markers (target hunk)],
             (inr (source_tokens, target_tokens)).
      intros Rng st0. simpl. rewrite <- app_assoc. reflexivity.
    + exists [strip_markers (source hunk); strip_markers (target hunk)],
             (inr ([], [])).
      intros Rng st0. simpl. rewrite <- app_assoc. reflexivity.
  - exists [strip_markers (source hunk)], (inr ([], [])).
    intros Rng st0. reflexivity.
Qed.

Lemma draws_tail (Rng : Type) (f : Rng -> Split * Rng) (r : Rng) (n : nat) :
  draws f r (S n) = fst (f r) :: draws f (snd (f r)) n.
Proof. reflexivity. Qed.

(** Two generators that give the same draws give the same first draw and
    leave states that give the same draws. *)
Lemma same_draws_step (Rng1 Rng2 : Type)
    (f1 : Rng1 -> Split * Rng1) (f2 : Rng2 -> Split * Rng2)
    (r1 : Rng1) (r2 : Rng2) :
  (forall n, draws f1 r1 n = draws f2 r2 n) ->
  fst (f1 r1) = fst (f2 r2)
  /\ (forall n, draws f1 (snd (f1 r1)) n = draws f2 (snd (f2 r2)) n).
Proof.
  intros Hsame. split.
  - specialize (Hsame 1%nat). simpl in Hsame. congruence.
  - intros n. specialize (Hsame (S n)). rewrite !draws_tail in Hsame. congruence.
Qed.

(** The generator with two split generators that give the same draws, from
    states with the same effects so far. *)
Lemma generator_same_draws (Rng1 Rng2 : Type)
    (f1 : Rng1 -> Split * Rng1) (f2 : Rng2 -> Split * Rng2)
    (PatchSet : string -> exn + list PatchedFile) (tokenize : string -> lexed)
    (json : list JsonData) :
  forall (st1 : ExtractorState Rng1) (st2 : ExtractorState Rng2),
    trace st1 = trace st2 ->
    (forall n, draws f1 (rng st1) n = draws f2 (rng st2) n) ->
    trace (fst (_raw_data_dict_generator f1 PatchSet tokenize json st1))
    = trace (fst (_raw_data_dict_generator f2 PatchSet tokenize json st2))
    /\ snd (_raw_data_dict_generator f1 PatchSet tokenize json st1)
       = snd (_raw_data_dict_generator f2 PatchSet tokenize json st2).
Proof.
  induction json as [|json_data rest IH]; intros st1 st2 Htrace Hdraws.
  - simpl. now split.
  - destruct (tokens_of_shape PatchSet tokenize (fixPatch json_data))
      as [texts [res Hshape]].
    pose proof (Hshape Rng1 st1) as H1. pose proof (Hshape Rng2 st2) as H2.
    destruct res as [e | [[|t source_tokens] target_tokens]].
    + rewrite (generator_raise f1 _ _ _ rest _ H1).
      rewrite (generator_raise f2 _ _ _ rest _ H2).
      simpl. now rewrite Htrace.
    + rewrite (generator_continue f1 _ _ _ rest _ H1).
      rewrite (generator_continue f2 _ _ _ rest _ H2).
      apply IH; simpl; [now rewrite Htrace | assumption].
    + rewrite (generator_yield_twice f1 _ _ _ rest _ H1) by discriminate.
      rewrite (generator_yield_twice f2 _ _ _ rest _ H2) by discriminate.
      simpl rng.
      destruct (same_draws_step f1 f2 _ _ Hdraws) as [Hfirst Hnext].
      destruct (same_draws_step f1 f2 _ _ Hnext) as [Hsecond Hafter].
      apply IH; simpl; [|assumption].
      now rewrite Htrace, Hfirst, Hsecond.
Qed.


End ExtractorFacts.

(** C7. For every patch string, the texts handed to the tokenizer are built
    from the first hunk of the first changed file only: the before-text is
    the source lines, and the after-text the target lines, each without
    its first character and concatenated in line order. The after-text is
    handed over once the before-text has lexed; a patch without a first
    file or first hunk, or one that does not parse, hands nothing over. *)
Theorem C7_texts_from_first_hunk
    (Rng : Type) (PatchSet : string -> exn + list PatchedFile)
    (tokenize : string -> lexed) (patch_str : string) (st : ExtractorState Rng) :
  let run := JsonExtractor._patch_to_source_and_target_tokens
               PatchSet tokenize patch_str st in
  (forall (c : ascii) (line : string), slice_from_1 (String c line) = line)
  /\ match PatchSet patch_str with
     | inr ((hunk :: _) :: _) =>
         let before := String.concat "" (map slice_from_1 (source hunk)) in
         let after := String.concat "" (map slice_from_1 (target hunk)) in
         tokenized (trace (fst run))
         = tokenized (trace st)
           ++ match tokenize before with
              | Tokens _ => [before; after]
              | LexerError _ => [before]
              end
     | _ => tokenized (trace (fst run)) = tokenized (trace st)
     end.
Proof.
  intros run. split; [reflexivity|].
  assert (Happ : forall (tr : list Effect) (texts : list string),
             tokenized (tr ++ map Tokenized texts) = tokenized tr ++ texts).
  { induction tr as [|e tr IH]; intros texts; simpl.
    - induction texts as [|t ts IHt]; simpl; [reflexivity | now rewrite IHt].
    - destruct e; simpl; now rewrite IH. }
  destruct (PatchSet patch_str) as [e | [|[|hunk hunks] files]] eqn:Hparse.
  - subst run. unfold JsonExtractor._patch_to_source_and_target_tokens, bind, lift.
    now rewrite Hparse.
  - subst run. unfold JsonExtractor._patch_to_source_and_target_tokens, bind, lift.
    now rewrite Hparse.
  - subst run. unfold JsonExtractor._patch_to_source_and_target_tokens, bind, lift.
    now rewrite Hparse.
  - subst run. rewrite (ExtractorFacts.tokens_of_first_hunk _ tokenize _ st Hparse).
    unfold JsonExtractor.strip_markers, join_empty.
    destruct (tokenize (String.concat "" (map slice_from_1 (source hunk))))
      as [source_tokens | seen].
    + destruct (tokenize (String.concat "" (map slice_from_1 (target hunk))))
        as [target_tokens | seen]; simpl;
        apply (Happ (trace st) [_; _]).
    + simpl. apply (Happ (trace st) [_]).
Qed.

(** C2, amended. For every JSON object whose patch has a first hunk, whose
    before-snippet tokenizes to a non-empty token list and whose
    after-snippet tokenizes without a lexer error, the generator emits
    exactly two records for it: first the before-tokens with the object's
    bugType, then the after-tokens with the label NO_BUG. Their splits
    come from two calls of the split generator, the second from the state
    the first call left. *)
Theorem C2_two_records_when_both_snippets_tokenize
    (Rng : Type) (random_split_fn : Rng -> Split * Rng)
    (PatchSet : string -> exn + list PatchedFile) (tokenize : string -> lexed)
    (json_data : JsonData) (rest : list JsonData) (st : ExtractorState Rng)
    (hunk : Hunk) (hunks : list Hunk) (files : list PatchedFile)
    (before_tokens after_tokens : list Token) :
  let before := JsonExtractor.strip_markers (source hunk) in
  let after := JsonExtractor.strip_markers (target hunk) in
  PatchSet (fixPatch json_data) = inr ((hunk :: hunks) :: files) ->
  tokenize before = Tokens before_tokens ->
  before_tokens <> [] ->
  tokenize after = Tokens after_tokens ->
  let first := random_split_fn (rng st) in
  let second := random_split_fn (snd first) in
  let before_record := {| raw_split := fst first;
                          raw_tokens := before_tokens;
                          raw_label := bugType json_data |} in
  let after_record := {| raw_split := fst second;
                         raw_tokens := after_tokens;
                         raw_label := "NO_BUG" |} in
  JsonExtractor._raw_data_dict_generator random_split_fn PatchSet tokenize
    (json_data :: rest) st
  = JsonExtractor._raw_data_dict_generator random_split_fn PatchSet tokenize rest
      {| rng := snd second;
         trace := trace st
                  ++ [Tokenized before; Tokenized after;
                      RandomSplit (fst first); Yielded before_record;
                      RandomSplit (fst second); Yielded after_record] |}
  /\ emitted (trace (fst (JsonExtractor.extract random_split_fn PatchSet tokenize
                            (rng st) [json_data])))
     = [before_record; after_record].
Proof.
  intros before after Hparse Hbefore Hne Hafter first second before_record after_record.
  assert (Hstep : forall (st0 : ExtractorState Rng) (others : list JsonData),
    rng st0 = rng st ->
    JsonExtractor._raw_data_dict_generator random_split_fn PatchSet tokenize
      (json_data :: others) st0
    = JsonExtractor._raw_data_dict_generator random_split_fn PatchSet tokenize others
        {| rng := snd second;
           trace := trace st0
                    ++ [Tokenized before; Tokenized after;
                        RandomSplit (fst first); Yielded before_record;
                        RandomSplit (fst second); Yielded after_record] |}).
  { intros st0 others Hrng.
    pose proof (ExtractorFacts.tokens_of_first_hunk _ tokenize _ st0 Hparse) as Htok.
    simpl in Htok. fold before after in Htok.
    rewrite Hbefore, Hafter in Htok.
    rewrite (ExtractorFacts.generator_yield_twice random_split_fn _ _ _ others _ Htok Hne).
    simpl. rewrite Hrng. fold first second.
    rewrite <- app_assoc. reflexivity. }
  split.
  - apply Hstep. reflexivity.
  - unfold JsonExtractor.extract. rewrite Hstep by reflexivity. reflexivity.
Qed.

(** C3, amended. For every JSON object whose patch has a first hunk, whose
    before-snippet tokenizes and whose after-snippet raises a lexer error,
    both token lists come back empty (the before-tokens are dropped with
    the after-tokens), and the generator emits no record for the object
    and draws no split. *)
Theorem C3_after_lexer_error_drops_the_object
    (Rng : Type) (random_split_fn : Rng -> Split * Rng)
    (PatchSet : string -> exn + list PatchedFile) (tokenize : string -> lexed)
    (json_data : JsonData) (rest : list JsonData) (st : ExtractorState Rng)
    (hunk : Hunk) (hunks : list Hunk) (files : list PatchedFile)
    (before_tokens seen : list Token) :
  let before := JsonExtractor.strip_markers (source hunk) in
  let after := JsonExtractor.strip_markers (target hunk) in
  PatchSet (fixPatch json_data) = inr ((hunk :: hunks) :: files) ->
  tokenize before = Tokens before_tokens ->
  tokenize after = LexerError seen ->
  JsonExtractor._patch_to_source_and_target_tokens PatchSet tokenize
    (fixPatch json_data) st
  = (JsonExtractor.with_effects st [Tokenized before; Tokenized after], inr ([], []))
  /\ JsonExtractor._raw_data_dict_generator random_split_fn PatchSet tokenize
       (json_data :: rest) st
     = JsonExtractor._raw_data_dict_generator random_split_fn PatchSet tokenize rest
         (JsonExtractor.with_effects st [Tokenized before; Tokenized after])
  /\ emitted (trace (fst (JsonExtractor.extract random_split_fn PatchSet tokenize
                            (rng st) [json_data]))) = []
  /\ drawn (trace (fst (JsonExtractor.extract random_split_fn PatchSet tokenize
                          (rng st) [json_data]))) = [].
Proof.
  intros before after Hparse Hbefore Hafter.
  assert (Htok : forall st0 : ExtractorState Rng,
    JsonExtractor._patch_to_source_and_target_tokens PatchSet tokenize
      (fixPatch json_data) st0
    = (JsonExtractor.with_effects st0 [Tokenized before; Tokenized after],
       inr ([], []))).
  { intros st0.
    pose proof (ExtractorFacts.tokens_of_first_hunk _ tokenize _ st0 Hparse) as Htok.
    simpl in Htok. fold before after in Htok.
    now rewrite Hbefore, Hafter in Htok. }
  split; [apply Htok|].
  split.
  - apply (ExtractorFacts.generator_continue random_split_fn _ _ _ rest _ (Htok st)).
  - unfold JsonExtractor.extract.
    rewrite (ExtractorFacts.generator_continue random_split_fn _ _ _ [] _ (Htok _)).
    split; reflexivity.
Qed.

(** C4. For every JSON object whose patch has a first hunk and whose
    before-snippet produces zero tokens, because it tokenizes to the empty
    list or because its tokenization raises a lexer error, the generator
    emits no record for the object, neither the before nor the after one,
    and draws no split. *)
Theorem C4_empty_before_drops_the_object
    (Rng : Type) (random_split_fn : Rng -> Split * Rng)
    (PatchSet : string -> exn + list PatchedFile) (tokenize : string -> lexed)
    (json_data : JsonData) (rest : list JsonData) (st : ExtractorState Rng)
    (hunk : Hunk) (hunks : list Hunk) (files : list PatchedFile) :
  let before := JsonExtractor.strip_markers (source hunk) in
  PatchSet (fixPatch json_data) = inr ((hunk :: hunks) :: files) ->
  (tokenize before = Tokens [] \/ exists seen, tokenize before = LexerError seen) ->
  (exists texts : list string,
     JsonExtractor._raw_data_dict_generator random_split_fn PatchSet tokenize
       (json_data :: rest) st
     = JsonExtractor._raw_data_dict_generator random_split_fn PatchSet tokenize rest
         (JsonExtractor.with_effects st (map Tokenized texts)))
  /\ emitted (trace (fst (JsonExtractor.extract random_split_fn PatchSet tokenize
                            (rng st) [json_data]))) = []
  /\ drawn (trace (fst (JsonExtractor.extract random_split_fn PatchSet tokenize
                          (rng st) [json_data]))) = [].
Proof.
  intros before Hparse Hzero.
  assert (Htok : exists texts : list string, forall st0 : ExtractorState Rng,
    exists target_tokens : list Token,
      JsonExtractor._patch_to_source_and_target_tokens PatchSet tokenize
        (fixPatch json_data) st0
      = (JsonExtractor.with_effects st0 (map Tokenized texts),
         inr ([], target_tokens))).
  { destruct Hzero as [Hempty | [seen Herror]].
    - destruct (tokenize (JsonExtractor.strip_markers (target hunk)))
        as [target_tokens | seen'] eqn:Hafter.
      + exists [before; JsonExtractor.strip_markers (target hunk)].
        intros st0. exists target_tokens.
        pose proof (ExtractorFacts.tokens_of_first_hunk _ tokenize _ st0 Hparse) as H.
        simpl in H. fold before in H. now rewrite Hempty, Hafter in H.
      + exists [before; JsonExtractor.strip_markers (target hunk)].
        intros st0. exists [].
        pose proof (ExtractorFacts.tokens_of_first_hunk _ tokenize _ st0 Hparse) as H.
        simpl in H. fold before in H. now rewrite Hempty, Hafter in H.
    - exists [before]. intros st0. exists [].
      pose proof (ExtractorFacts.tokens_of_first_hunk _ tokenize _ st0 Hparse) as H.
      simpl in H. fold before in H. now rewrite Herror in H. }
  destruct Htok as [texts Htok].
  split.
  - exists texts. destruct (Htok st) as [target_tokens H].
    apply (ExtractorFacts.generator_continue random_split_fn _ _ _ rest _ H).
  - unfold JsonExtractor.extract.
    destruct (Htok {| rng := rng st; trace := [] |}) as [target_tokens H].
    rewrite (ExtractorFacts.generator_continue random_split_fn _ _ _ [] _ H).
    simpl. clear. induction texts as [|t ts [IH1 IH2]]; simpl; auto.
Qed.

(** C8. Two runs of the extractor over the same JSON objects in the same
    order, with the same diff parser and tokenizer and with split
    generators that give the same sequence of draws, have the same effects
    in the same order: the same records with the same splits are emitted,
    and both runs end the same way. *)
Theorem C8_same_draws_same_records
    (Rng1 Rng2 : Type)
    (random_split_fn1 : Rng1 -> Split * Rng1)
    (random_split_fn2 : Rng2 -> Split * Rng2)
    (seed1 : Rng1) (seed2 : Rng2)
    (PatchSet : string -> exn + list PatchedFile) (tokenize : string -> lexed)
    (json : list JsonData) :
  (forall n : nat,
      JsonExtractor.draws random_split_fn1 seed1 n
      = JsonExtractor.draws random_split_fn2 seed2 n) ->
  let run1 := JsonExtractor.extract random_split_fn1 PatchSet tokenize seed1 json in
  let run2 := JsonExtractor.extract random_split_fn2 PatchSet tokenize seed2 json in
  trace (fst run1) = trace (fst run2)
  /\ emitted (trace (fst run1)) = emitted (trace (fst run2))
  /\ map raw_split (emitted (trace (fst run1)))
     = map raw_split (emitted (trace (fst run2)))
  /\ snd run1 = snd run2.
Proof.
  intros Hdraws run1 run2.
  destruct (ExtractorFacts.generator_same_draws random_split_fn1 random_split_fn2
              PatchSet tokenize json
              {| rng := seed1; trace := [] |} {| rng := seed2; trace := [] |}
              eq_refl Hdraws) as [Htrace Hend].
  fold (JsonExtractor.extract random_split_fn1 PatchSet tokenize seed1 json) in Htrace, Hend.
  fold (JsonExtractor.extract random_split_fn2 PatchSet tokenize seed2 json) in Htrace, Hend.
  fold run1 run2 in Htrace, Hend.
  rewrite Htrace. auto.
Qed.

(** C10. For every JSON object whose patch has a first hunk, whose
    before-snippet tokenizes to a non-empty list and whose after-snippet
    tokenizes without error to the empty list, the generator still emits
    the NO_BUG record, with zero tokens, after the before-record; and on
    that record the converter builds a graph with zero nodes, zero edges
    and the class output NO_BUG, which is the graph it hands to the hooks
    and to validation. *)
Theorem C10_empty_after_snippet_gives_empty_graph
    (Rng : Type) (random_split_fn : Rng -> Split * Rng)
    (PatchSet : string -> exn + list PatchedFile) (tokenize : string -> lexed)
    (json_data : JsonData) (seed : Rng)
    (hunk : Hunk) (hunks : list Hunk) (files : list PatchedFile)
    (before_tokens : list Token) :
  PatchSet (fixPatch json_data) = inr ((hunk :: hunks) :: files) ->
  tokenize (JsonExtractor.strip_markers (source hunk)) = Tokens before_tokens ->
  before_tokens <> [] ->
  tokenize (JsonExtractor.strip_markers (target hunk)) = Tokens [] ->
  let first := random_split_fn seed in
  let second := random_split_fn (snd first) in
  let no_bug := {| raw_split := fst second;
                   raw_tokens := [];
                   raw_label := "NO_BUG" |} in
  let empty_graph := {| nodes := [];
                        edges := [];
                        output := Some (ClassOutput "NO_BUG") |} in
  emitted (trace (fst (JsonExtractor.extract random_split_fn PatchSet tokenize
                         seed [json_data])))
  = [{| raw_split := fst first;
        raw_tokens := before_tokens;
        raw_label := bugType json_data |}; no_bug]
  /\ (forall (transformation_funcs : list (GraphToOutputExample -> GraphToOutputExample))
             (filter_funcs : list (GraphToOutputExample -> bool))
             (log : list Call),
        ManySStuBs4JDataset.build_chain (raw_tokens no_bug) (raw_label no_bug) log
          = (log, inr empty_graph)
        /\ ManySStuBs4JDataset.raw_data_to_graph_to_output_example
             transformation_funcs filter_funcs no_bug log
           = ManySStuBs4JDataset.finish transformation_funcs filter_funcs
               (fst second) empty_graph log).
Proof.
  intros Hparse Hbefore Hne Hafter first second no_bug empty_graph.
  split.
  - unfold JsonExtractor.extract.
    pose proof (ExtractorFacts.tokens_of_first_hunk _ tokenize _
                  {| rng := seed; trace := [] |} Hparse) as Htok.
    simpl in Htok. rewrite Hbefore, Hafter in Htok.
    rewrite (ExtractorFacts.generator_yield_twice random_split_fn _ _ _ [] _ Htok Hne).
    reflexivity.
  - intros tfs ffs log.
    assert (Hbuild : ManySStuBs4JDataset.build_chain (raw_tokens no_bug)
                       (raw_label no_bug) log = (log, inr empty_graph)).
    { rewrite ChainFacts.build_chain_spec. reflexivity. }
    split; [exact Hbuild|].
    unfold ManySStuBs4JDataset.raw_data_to_graph_to_output_example, bind.
    rewrite Hbuild. reflexivity.
Qed.

(** ** The claims at concrete inputs *)

(** The before-snippet [a;] of this object tokenizes to two tokens, its
    after-snippet [#] raises a lexer error, and the generator emits no
    record for it: not two. *)
Lemma C2_counterexample_after_lexer_error :
  Demo.PatchSet (fixPatch Demo.object_after_fails)
    = inr [[ {| source := [("-a;" ++ Demo.newline)%string];
                target := [("+#" ++ Demo.newline)%string] |} ]]
  /\ Demo.tokenize (JsonExtractor.strip_markers [("-a;" ++ Demo.newline)%string])
     = Tokens Demo.tokens_a
  /\ Demo.tokens_a <> []
  /\ emitted (trace (fst (Demo.extract 0 [Demo.object_after_fails]))) = []
  /\ length (emitted (trace (fst (Demo.extract 0 [Demo.object_after_fails]))))
     <> 2%nat.
Proof.
  repeat split; try reflexivity; discriminate.
Qed.

(** On the same object, whose before-snippet tokenizes and whose
    after-snippet raises a lexer error, the before-tokens are not kept
    (both lists come back empty) and no record is emitted: not one. *)
Lemma C3_counterexample_before_tokens_dropped :
  Demo.tokenize (JsonExtractor.strip_markers [("-a;" ++ Demo.newline)%string])
    = Tokens Demo.tokens_a
  /\ Demo.tokenize (JsonExtractor.strip_markers [("+#" ++ Demo.newline)%string])
     = LexerError []
  /\ snd (JsonExtractor._patch_to_source_and_target_tokens
            Demo.PatchSet Demo.tokenize (fixPatch Demo.object_after_fails)
            {| rng := 0; trace := [] |})
     = inr ([], [])
  /\ snd (JsonExtractor._patch_to_source_and_target_tokens
            Demo.PatchSet Demo.tokenize (fixPatch Demo.object_after_fails)
            {| rng := 0; trace := [] |})
     <> inr (Demo.tokens_a, [])
  /\ length (emitted (trace (fst (Demo.extract 0 [Demo.object_after_fails]))))
     <> 1%nat.
Proof.
  repeat split; try reflexivity; discriminate.
Qed.

(** C2 at the object that replaces [a;] by [b;]. *)
Lemma C2_witness_change :
  emitted (trace (fst (Demo.extract 0 [Demo.object_change])))
  = [{| raw_split := train;
        raw_tokens := Demo.tokens_a;
        raw_label := "CHANGE_IDENTIFIER" |};
     {| raw_split := train;
        raw_tokens := Demo.tokens_b;
        raw_label := "NO_BUG" |}].
Proof.
  refine (proj2 (@C2_two_records_when_both_snippets_tokenize
                   Z Demo.random_split_fn Demo.PatchSet Demo.tokenize
                   Demo.object_change [] {| rng := 0; trace := [] |}
                   {| source := [("-a;" ++ Demo.newline)%string];
                      target := [("+b;" ++ Demo.newline)%string] |} [] []
                   Demo.tokens_a Demo.tokens_b _ _ _ _)).
  - reflexivity.
  - reflexivity.
  - discriminate.
  - reflexivity.
Defined.

(** C3 at the object whose after-snippet is [#]. *)
Lemma C3_witness_after_fails :
  emitted (trace (fst (Demo.extract 0 [Demo.object_after_fails]))) = []
  /\ drawn (trace (fst (Demo.extract 0 [Demo.object_after_fails]))) = [].
Proof.
  refine (proj2 (proj2 (@C3_after_lexer_error_drops_the_object
                   Z Demo.random_split_fn Demo.PatchSet Demo.tokenize
                   Demo.object_after_fails [] {| rng := 0; trace := [] |}
                   {| source := [("-a;" ++ Demo.newline)%string];
                      target := [("+#" ++ Demo.newline)%string] |} [] []
                   Demo.tokens_a [] _ _ _))).
  - reflexivity.
  - reflexivity.
  - reflexivity.
Defined.

(** C4 at the object whose before-snippet is [#]. *)
Lemma C4_witness_before_fails :
  emitted (trace (fst (Demo.extract 0 [Demo.object_before_fails]))) = []
  /\ drawn (trace (fst (Demo.extract 0 [Demo.object_before_fails]))) = [].
Proof.
  refine (proj2 (@C4_empty_before_drops_the_object
                   Z Demo.random_split_fn Demo.PatchSet Demo.tokenize
                   Demo.object_before_fails [] {| rng := 0; trace := [] |}
                   {| source := [("-#" ++ Demo.newline)%string];
                      target := [("+b;" ++ Demo.newline)%string] |} [] [] _ _)).
  - reflexivity.
  - right. exists []. reflexivity.
Defined.

(** C6 at a three-token record: with the filters [keep_all],
    [at_most_two_nodes], [keep_all] the example is [None] and the third
    filter is not called; with [keep_all] twice the chain is returned. *)
Lemma C6_witness_filters :
  (snd (ManySStuBs4JDataset.convert []
          [Demo.keep_all; Demo.at_most_two_nodes; Demo.keep_all] Demo.raw_abc)
   = inr {| out_split := validation; out_GraphToOutputExample := None |}
   /\ filter Closed.is_filter
        (fst (ManySStuBs4JDataset.convert []
                [Demo.keep_all; Demo.at_most_two_nodes; Demo.keep_all] Demo.raw_abc))
      = [CallFilter 0 Demo.graph_abc; CallFilter 1 Demo.graph_abc])
  /\ snd (ManySStuBs4JDataset.convert [] [Demo.keep_all; Demo.keep_all] Demo.raw_abc)
     = inr {| out_split := validation;
              out_GraphToOutputExample := Some Demo.graph_abc |}.
Proof.
  split.
  - refine (proj2 (@C6_filter_rejection_returns_none []
                     [Demo.keep_all; Demo.at_most_two_nodes; Demo.keep_all]
                     Demo.raw_abc Demo.graph_abc _ _)
              [Demo.keep_all] [Demo.keep_all] Demo.at_most_two_nodes _ _ _).
    + simpl. left. reflexivity.
    + reflexivity.
    + reflexivity.
    + reflexivity.
    + reflexivity.
  - refine (proj1 (proj1 (@C6_filter_rejection_returns_none []
                     [Demo.keep_all; Demo.keep_all]
                     Demo.raw_abc Demo.graph_abc _ _) _)).
    + simpl. left. reflexivity.
    + reflexivity.
    + reflexivity.
Defined.

Lemma counting_split_fn_draws (n : nat) :
  forall (state : Z) (calls : nat),
    JsonExtractor.draws Demo.random_split_fn state n
    = JsonExtractor.draws Demo.counting_split_fn (state, calls) n.
Proof.
  induction n as [|n IH]; intros state calls.
  - reflexivity.
  - rewrite !ExtractorFacts.draws_tail. f_equal. apply IH.
Qed.

(** C8 at a file of four objects, with the seeded generator in one run and
    the generator that also counts its calls in the other. *)
Lemma C8_witness_two_generators :
  emitted (trace (fst (JsonExtractor.extract Demo.random_split_fn
                         Demo.PatchSet Demo.tokenize 7
                         [Demo.object_change; Demo.object_after_fails;
                          Demo.object_deletion; Demo.object_change])))
  = emitted (trace (fst (JsonExtractor.extract Demo.counting_split_fn
                           Demo.PatchSet Demo.tokenize (7, O)
                           [Demo.object_change; Demo.object_after_fails;
                            Demo.object_deletion; Demo.object_change]))).
Proof.
  refine (proj1 (proj2 (@C8_same_draws_same_records Z (Z * nat)
                   Demo.random_split_fn Demo.counting_split_fn 7 (7, O)
                   Demo.PatchSet Demo.tokenize
                   [Demo.object_change; Demo.object_after_fails;
                    Demo.object_deletion; Demo.object_change] _))).
  intros n. apply counting_split_fn_draws.
Defined.

(** C9 at a three-token record of the validation split. *)
Lemma C9_witness_split :
  exists out : OutputExample,
    snd (ManySStuBs4JDataset.convert [] [Demo.keep_all] Demo.raw_abc) = inr out
    /\ out_split out = validation.
Proof.
  eexists. split.
  - reflexivity.
  - exact (@C9_split_unchanged [] [Demo.keep_all] Demo.raw_abc _ eq_refl).
Defined.

(** C10 at the object that only deletes [a;]. *)
Lemma C10_witness_deletion :
  emitted (trace (fst (Demo.extract 0 [Demo.object_deletion])))
  = [{| raw_split := train;
        raw_tokens := Demo.tokens_a;
        raw_label := "DELETE_STATEMENT" |};
     {| raw_split := train; raw_tokens := []; raw_label := "NO_BUG" |}].
Proof.
  refine (proj1 (@C10_empty_after_snippet_gives_empty_graph
                   Z Demo.random_split_fn Demo.PatchSet Demo.tokenize
                   Demo.object_deletion 0
                   {| source := [("-a;" ++ Demo.newline)%string]; target := [] |}
                   [] [] Demo.tokens_a _ _ _ _)).
  - reflexivity.
  - reflexivity.
  - discriminate.
  - reflexivity.
Defined.

(** ** The chain passes validation *)

Module ValidityFacts.
Import ManySStuBs4JDataset Closed.

Lemma in_range (n i : Z) : In i (range n) <-> 0 <= i < n.
Proof.
  unfold range. rewrite in_map_iff. split.
  - intros [k [<- Hin]]. apply in_seq in Hin. lia.
  - intros Hi. exists (Z.to_nat i). split; [lia|]. apply in_seq. lia.
Qed.

Lemma existsb_eqb_in (i : Z) (l : list Z) :
  existsb (Z.eqb i) l = true <-> In i l.
Proof.
  rewrite existsb_exists. split.
  - intros [j [Hin Heq]]. apply Z.eqb_eq in Heq. now subst.
  - intros Hin. exists i. split; [assumption | apply Z.eqb_refl].
Qed.

Lemma nodupb_NoDup (l : list Z) : NoDup l -> Graph.nodupb l = true.
Proof.
  induction 1 as [|x rest Hnotin _ IH]; simpl.
  - reflexivity.
  - rewrite IH, andb_true_r. apply negb_true_iff.
    destruct (existsb (Z.eqb x) rest) eqn:E; [|reflexivity].
    apply existsb_eqb_in in E. contradiction.
Qed.

Lemma NoDup_range (n : Z) : NoDup (range n).
Proof.
  unfold range. apply NoDup_map_NoDup_ForallPairs.
  - intros a b _ _. apply Nat2Z.inj.
  - apply seq_NoDup.
Qed.

(** The graph of lines 165-177 satisfies the three invariants that
    [check_if_valid] tests, for every list of tokens and every label. *)
Lemma chain_is_valid (tokens : list Token) (label : string) :
  Graph.check_if_valid (chain tokens label) = true.
Proof.
  unfold Graph.check_if_valid, Graph.has_id, Graph.node_ids.
  rewrite ChainFacts.chain_node_ids.
  rewrite !andb_true_iff. repeat split.
  - apply forallb_forall. intros e Hin. simpl in Hin.
    apply in_map_iff in Hin. destruct Hin as [i [<- Hi]].
    apply in_range in Hi. simpl.
    apply andb_true_iff. split; apply existsb_eqb_in, in_range; lia.
  - apply forallb_forall. intros i Hi. apply in_range in Hi.
    replace (len (nodes (chain tokens label))) with (len tokens).
    + apply andb_true_iff. split; [apply Z.leb_le | apply Z.ltb_lt]; lia.
    + rewrite <- (ChainFacts.chain_node_contents tokens label) at 1.
      unfold len. now rewrite length_map.
  - apply nodupb_NoDup, NoDup_range.
Qed.

(** Without transformation hooks the converter does not raise. *)
Lemma convert_without_transformations_returns
    (filter_funcs : list (GraphToOutputExample -> bool)) (raw_data : RawData) :
  snd (convert [] filter_funcs raw_data)
  = inr {| out_split := raw_split raw_data;
           out_GraphToOutputExample :=
             filtered filter_funcs
               (chain (raw_tokens raw_data) (raw_label raw_data)) |}.
Proof.
  pose proof (HookFacts.convert_spec [] filter_funcs raw_data) as Hc.
  simpl in Hc. unfold transformed in Hc. simpl in Hc.
  rewrite chain_is_valid in Hc. now rewrite Hc.
Qed.

(** A transformation hook can break the graph: the converter then raises
    after the check, and the filter is not called. *)
Example convert_raises_after_drop_output :
  convert [Demo.drop_output] [Demo.keep_all] Demo.raw_abc
  = ([CallTransformation 0 Demo.graph_abc;
      CallCheckIfValid (Demo.drop_output Demo.graph_abc)],
     inl (GraphToOutputExampleNotValidError (Demo.drop_output Demo.graph_abc))).
Proof. reflexivity. Qed.

(** The extractor on a file of five objects: the second and the third are
    skipped, and the fifth has no hunk, so the generator ends in
    [IndexError] after the records of the first and the fourth. *)
Example extract_five_objects :
  let run := Demo.extract 0 [Demo.object_change; Demo.object_after_fails;
                             Demo.object_before_fails; Demo.object_deletion;
                             {| fixPatch := ""; bugType := "X" |}] in
  map raw_label (emitted (trace (fst run)))
  = ["CHANGE_IDENTIFIER"; "NO_BUG"; "DELETE_STATEMENT"; "NO_BUG"]
  /\ map raw_tokens (emitted (trace (fst run)))
     = [Demo.tokens_a; Demo.tokens_b; Demo.tokens_a; []]
  /\ length (drawn (trace (fst run))) = 4%nat
  /\ snd run = inl IndexError.
Proof. repeat split. Qed.

End ValidityFacts.

(** * More properties of the module *)

(** ** Strings *)

Module StringFacts.

Lemma length_append (a b : string) :
  String.length (a ++ b) = (String.length a + String.length b)%nat.
Proof.
  induction a as [|c a IH]; simpl; [reflexivity | now rewrite IH].
Qed.

Lemma concat_empty_cons (x : string) (xs : list string) :
  String.concat "" (x :: xs) = (x ++ String.concat "" xs)%string.
Proof.
  destruct xs as [|y ys]; simpl.
  - induction x as [|c x IH]; simpl; [reflexivity | now rewrite <- IH].
  - reflexivity.
Qed.

Lemma length_concat_empty (parts : list string) :
  String.length (String.concat "" parts) = list_sum (map String.length parts).
Proof.
  induction parts as [|x xs IH].
  - reflexivity.
  - rewrite concat_empty_cons, length_append, IH. reflexivity.
Qed.

Lemma append_assoc (a b c : string) : ((a ++ b) ++ c = a ++ (b ++ c))%string.
Proof.
  induction a as [|x a IH]; simpl; [reflexivity | now rewrite IH].
Qed.

Lemma prefix_append (a b : string) : prefix a (a ++ b) = true.
Proof.
  induction a as [|c a IH]; simpl.
  - now destruct b.
  - destruct (ascii_dec c c) as [_ | Hne]; [exact IH | contradiction].
Qed.

End StringFacts.

(** X1. Stripping the markers takes exactly the first character off every
    non-empty line and nothing off an empty one: lines built by putting
    any marker before each content line strip back to the joined
    contents, and for any lines the stripped text is shorter than the
    joined lines by the number of non-empty lines. *)
Theorem X1_strip_markers_removes_one_character_per_line
    (marked : list (ascii * string)) (lines : list string) :
  JsonExtractor.strip_markers (map (fun m => String (fst m) (snd m)) marked)
    = String.concat "" (map snd marked)
  /\ (String.length (JsonExtractor.strip_markers lines)
      + length (filter (fun line => negb (String.eqb line "")) lines)
      = String.length (String.concat "" lines))%nat.
Proof.
  split.
  - unfold JsonExtractor.strip_markers, join_empty.
    rewrite map_map. reflexivity.
  - unfold JsonExtractor.strip_markers, join_empty.
    rewrite !StringFacts.length_concat_empty.
    induction lines as [|line rest IH]; [reflexivity|].
    destruct line as [|c line]; simpl in *; lia.
Qed.

(** ** _patch_to_source_and_target_tokens *)

(** X2. Whenever [_patch_to_source_and_target_tokens] returns, it returns
    all or nothing: either the full token lists the tokenizer gave for the
    before-text and the after-text of the first hunk, or two empty lists.
    Tokens seen before a lexer error are never returned, and a before-list
    is never returned beside an after-list that failed. *)
Theorem X2_tokens_all_or_nothing
    (Rng : Type) (PatchSet : string -> exn + list PatchedFile)
    (tokenize : string -> lexed) (patch_str : string)
    (st : ExtractorState Rng) (source_tokens target_tokens : list Token) :
  snd (JsonExtractor._patch_to_source_and_target_tokens
         PatchSet tokenize patch_str st)
    = inr (source_tokens, target_tokens) ->
  (source_tokens = [] /\ target_tokens = [])
  \/ (exists (hunk : Hunk) (hunks : list Hunk) (files : list PatchedFile),
        PatchSet patch_str = inr ((hunk :: hunks) :: files)
        /\ tokenize (JsonExtractor.strip_markers (source hunk))
           = Tokens source_tokens
        /\ tokenize (JsonExtractor.strip_markers (target hunk))
           = Tokens target_tokens).
Proof.
  destruct (PatchSet patch_str) as [e | [|[|hunk hunks] files]] eqn:Hparse;
    try (unfold JsonExtractor._patch_to_source_and_target_tokens, bind, lift;
         rewrite Hparse; simpl; discriminate).
  rewrite (ExtractorFacts.tokens_of_first_hunk _ tokenize _ st Hparse).
  destruct (tokenize (JsonExtractor.strip_markers (source hunk)))
    as [s | seen] eqn:Hbefore.
  - destruct (tokenize (JsonExtractor.strip_markers (target hunk)))
      as [t | seen] eqn:Hafter; simpl; intros H; injection H as <- <-.
    + right. exists hunk, hunks, files. auto.
    + left. auto.
  - simpl. intros H. injection H as <- <-. left. auto.
Qed.

(** X2 at the patch that replaces [a;] by [b;]. *)
Lemma X2_witness_change :
  (Demo.tokens_a = [] /\ Demo.tokens_b = [])
  \/ (exists (hunk : Hunk) (hunks : list Hunk) (files : list PatchedFile),
        Demo.PatchSet Demo.patch_change = inr ((hunk :: hunks) :: files)
        /\ Demo.tokenize (JsonExtractor.strip_markers (source hunk))
           = Tokens Demo.tokens_a
        /\ Demo.tokenize (JsonExtractor.strip_markers (target hunk))
           = Tokens Demo.tokens_b).
Proof.
  exact (@X2_tokens_all_or_nothing Z Demo.PatchSet Demo.tokenize
           Demo.patch_change {| rng := 0; trace := [] |}
           Demo.tokens_a Demo.tokens_b eq_refl).
Defined.

(** X3. [_patch_to_source_and_target_tokens] raises exactly when the patch
    has no first hunk: the error of the parser when the patch does not
    parse, [IndexError] when it has no file or its first file has no hunk;
    in these cases the tokenizer is not called and the state is as it
    was. Once there is a first hunk it returns, with the state of the split
    generator as it was: a lexer error never leaves it. *)
Theorem X3_tokens_raise_only_without_first_hunk
    (Rng : Type) (PatchSet : string -> exn + list PatchedFile)
    (tokenize : string -> lexed) (patch_str : string) (st : ExtractorState Rng) :
  let run := JsonExtractor._patch_to_source_and_target_tokens
               PatchSet tokenize patch_str st in
  match PatchSet patch_str with
  | inl e => run = (st, inl e)
  | inr [] => run = (st, inl IndexError)
  | inr ([] :: _) => run = (st, inl IndexError)
  | inr ((hunk :: _) :: _) =>
      exists tokens : list Token * list Token,
        snd run = inr tokens /\ rng (fst run) = rng st
  end.
Proof.
  intros run.
  destruct (PatchSet patch_str) as [e | [|[|hunk hunks] files]] eqn:Hparse;
    try (subst run;
         unfold JsonExtractor._patch_to_source_and_target_tokens, bind, lift;
         rewrite Hparse; reflexivity).
  subst run. rewrite (ExtractorFacts.tokens_of_first_hunk _ tokenize _ st Hparse).
  destruct (tokenize (JsonExtractor.strip_markers (source hunk))) as [s | seen].
  - destruct (tokenize (JsonExtractor.strip_markers (target hunk))) as [t | seen];
      eexists; split; reflexivity.
  - eexists. split; reflexivity.
Qed.

(** ** The generator over a whole file *)

Module GeneratorFacts.
Import JsonExtractor ExtractorClosed.

Lemma emitted_app (a b : list Effect) : emitted (a ++ b) = emitted a ++ emitted b.
Proof.
  induction a as [|e a IH]; simpl; [reflexivity|].
  destruct e; simpl; now rewrite IH.
Qed.

Lemma drawn_app (a b : list Effect) : drawn (a ++ b) = drawn a ++ drawn b.
Proof.
  induction a as [|e a IH]; simpl; [reflexivity|].
  destruct e; simpl; now rewrite IH.
Qed.

Lemma tokenized_app (a b : list Effect) :
  tokenized (a ++ b) = tokenized a ++ tokenized b.
Proof.
  induction a as [|e a IH]; simpl; [reflexivity|].
  destruct e; simpl; now rewrite IH.
Qed.

Lemma only_tokenized (texts : list string) :
  emitted (map Tokenized texts) = []
  /\ drawn (map Tokenized texts) = []
  /\ tokenized (map Tokenized texts) = texts.
Proof.
  induction texts as [|t ts [IH1 [IH2 IH3]]]; simpl; [auto|].
  rewrite IH3. auto.
Qed.

Lemma with_effects_nil (Rng : Type) (st : ExtractorState Rng) :
  with_effects st [] = st.
Proof. unfold with_effects. rewrite app_nil_r. now destruct st. Qed.

Lemma with_effects_app (Rng : Type) (st : ExtractorState Rng) (a b : list Effect) :
  with_effects (with_effects st a) b = with_effects st (a ++ b).
Proof. unfold with_effects. simpl. now rewrite app_assoc. Qed.

(** What the patch of an object gives decides the step of the generator,
    with any split generator and from any state. *)
Lemma generator_step (PatchSet : string -> exn + list PatchedFile)
    (tokenize : string -> lexed) (json_data : JsonData) :
  exists texts : list string,
    forall (Rng : Type) (f : Rng -> Split * Rng) (rest : list JsonData)
           (st : ExtractorState Rng),
      _raw_data_dict_generator f PatchSet tokenize (json_data :: rest) st
      = match patch_tokens PatchSet tokenize (fixPatch json_data) with
        | inl e => (with_effects st (map Tokenized texts), inl e)
        | inr ([], _) =>
            _raw_data_dict_generator f PatchSet tokenize rest
              (with_effects st (map Tokenized texts))
        | inr (t :: source_tokens, target_tokens) =>
            _raw_data_dict_generator f PatchSet tokenize rest
              (yield_pair f (with_effects st (map Tokenized texts))
                 (t :: source_tokens) target_tokens (bugType json_data))
        end.
Proof.
  destruct (ExtractorFacts.tokens_of_shape PatchSet tokenize (fixPatch json_data))
    as [texts [res Hshape]].
  exists texts. intros Rng f rest st.
  unfold patch_tokens. rewrite (Hshape unit). simpl snd.
  pose proof (Hshape Rng st) as H.
  destruct res as [e | [[|t source_tokens] target_tokens]].
  - apply (ExtractorFacts.generator_raise f _ _ _ rest _ H).
  - apply (ExtractorFacts.generator_continue f _ _ _ rest _ H).
  - rewrite (ExtractorFacts.generator_yield_twice f _ _ _ rest _ H) by discriminate.
    reflexivity.
Qed.

(** A property of the state that the two kinds of step keep is kept by the
    generator, however its run ends. *)
Lemma generator_keeps (Rng : Type) (f : Rng -> Split * Rng)
    (PatchSet : string -> exn + list PatchedFile) (tokenize : string -> lexed)
    (Inv : ExtractorState Rng -> Prop) :
  (forall st texts, Inv st -> Inv (with_effects st (map Tokenized texts))) ->
  (forall st t source_tokens target_tokens label,
      Inv st -> Inv (yield_pair f st (t :: source_tokens) target_tokens label)) ->
  forall (json : list JsonData) (st : ExtractorState Rng),
    Inv st -> Inv (fst (_raw_data_dict_generator f PatchSet tokenize json st)).
Proof.
  intros Htok Hpair. induction json as [|json_data rest IH]; intros st Hst.
  - exact Hst.
  - destruct (generator_step PatchSet tokenize json_data) as [texts Hstep].
    rewrite Hstep.
    destruct (patch_tokens PatchSet tokenize (fixPatch json_data))
      as [e | [[|t source_tokens] target_tokens]].
    + simpl. now apply Htok.
    + apply IH. now apply Htok.
    + apply IH. apply Hpair. now apply Htok.
Qed.

(** The generator over two lists of objects, one after the other. *)
Lemma generator_app (Rng : Type) (f : Rng -> Split * Rng)
    (PatchSet : string -> exn + list PatchedFile) (tokenize : string -> lexed)
    (first_part second_part : list JsonData) :
  forall st : ExtractorState Rng,
    _raw_data_dict_generator f PatchSet tokenize (first_part ++ second_part) st
    = match _raw_data_dict_generator f PatchSet tokenize first_part st with
      | (st', inl e) => (st', inl e)
      | (st', inr _) =>
          _raw_data_dict_generator f PatchSet tokenize second_part st'
      end.
Proof.
  induction first_part as [|json_data rest IH]; intros st.
  - reflexivity.
  - destruct (generator_step PatchSet tokenize json_data) as [texts Hstep].
    rewrite <- app_comm_cons. rewrite !Hstep.
    destruct (patch_tokens PatchSet tokenize (fixPatch json_data))
      as [e | [[|t source_tokens] target_tokens]]; [reflexivity | apply IH | apply IH].
Qed.



Lemma paired_app (a b : list RawData) :
  paired a = true -> paired b = true -> paired (a ++ b) = true.
Proof.
  intros Ha Hb.
  assert (H : forall n (l : list RawData),
             (length l <= n)%nat -> paired l = true -> paired (l ++ b) = true).
  { induction n as [|n IH]; intros l Hlen Hl.
    - destruct l; [exact Hb | simpl in Hlen; lia].
    - destruct l as [|x [|y l']]; [exact Hb | discriminate |].
      simpl in Hl |- *. apply andb_prop in Hl. destruct Hl as [Hxy Hl].
      rewrite Hxy. simpl. apply IH; [simpl in Hlen; lia | exact Hl]. }
  apply (H (length a)); [lia | exact Ha].
Qed.

Lemma paired_positions (records : list RawData) :
  paired records = true ->
  Nat.even (length records) = true
  /\ (forall (k : nat) (r : RawData),
        nth_error records (2 * k) = Some r -> raw_tokens r <> [])
  /\ (forall (k : nat) (r : RawData),
        nth_error records (2 * k + 1) = Some r -> raw_label r = "NO_BUG").
Proof.
  assert (H : forall n (l : list RawData),
             (length l <= n)%nat -> paired l = true ->
             Nat.even (length l) = true
             /\ (forall k r, nth_error l (2 * k) = Some r -> raw_tokens r <> [])
             /\ (forall k r, nth_error l (2 * k + 1) = Some r
                             -> raw_label r = "NO_BUG")).
  { induction n as [|n IH]; intros l Hlen Hl.
    - destruct l; [|simpl in Hlen; lia].
      split; [reflexivity|]. split; intros k r Hk; destruct k; discriminate.
    - destruct l as [|x [|y l']].
      + split; [reflexivity|]. split; intros k r Hk; destruct k; discriminate.
      + discriminate.
      + simpl in Hl. apply andb_prop in Hl. destruct Hl as [Hxy Hl].
        apply andb_prop in Hxy. destruct Hxy as [Hx Hy].
        destruct (IH l') as [He [Ht Hlab]]; [simpl in Hlen; lia | exact Hl |].
        split; [exact He|]. split.
        * intros k r Hk. destruct k as [|k].
          -- simpl in Hk. injection Hk as <-.
             destruct (raw_tokens x); [discriminate | discriminate].
          -- replace (2 * S k)%nat with (S (S (2 * k))) in Hk by lia.
             simpl in Hk. now apply (Ht k).
        * intros k r Hk. destruct k as [|k].
          -- simpl in Hk. injection Hk as <-. now apply String.eqb_eq.
          -- replace (2 * S k + 1)%nat with (S (S (2 * k + 1))) in Hk by lia.
             simpl in Hk. now apply (Hlab k). }
  intros Hp. apply (H (length records)); [lia | exact Hp].
Qed.

End GeneratorFacts.


(** X5. The emitted records come in pairs, in every run and also when the
    run ends in an exception: their number is even, every record at an
    even position has a non-empty token list, and every record at an odd
    position has the label NO_BUG. *)
Theorem X5_records_come_in_pairs
    (Rng : Type) (random_split_fn : Rng -> Split * Rng)
    (PatchSet : string -> exn + list PatchedFile) (tokenize : string -> lexed)
    (seed : Rng) (json : list JsonData) :
  let records :=
    emitted (trace (fst (JsonExtractor.extract random_split_fn PatchSet tokenize
                           seed json))) in
  Nat.even (length records) = true
  /\ (forall (k : nat) (r : RawData),
        nth_error records (2 * k) = Some r -> raw_tokens r <> [])
  /\ (forall (k : nat) (r : RawData),
        nth_error records (2 * k + 1) = Some r -> raw_label r = "NO_BUG").
Proof.
  intros records. apply GeneratorFacts.paired_positions.
  unfold records, JsonExtractor.extract.
  apply (GeneratorFacts.generator_keeps random_split_fn PatchSet tokenize
           (fun st => ExtractorClosed.paired (emitted (trace st)) = true)).
  - intros st texts H. unfold JsonExtractor.with_effects. simpl.
    rewrite GeneratorFacts.emitted_app.
    destruct (GeneratorFacts.only_tokenized texts) as [-> _].
    now rewrite app_nil_r.
  - intros st t source_tokens target_tokens label H.
    unfold ExtractorClosed.yield_pair. simpl.
    rewrite GeneratorFacts.emitted_app. apply GeneratorFacts.paired_app; [exact H|].
    reflexivity.
  - reflexivity.
Qed.

(** X6. When the run of the extractor over a file ends without an
    exception, the tokens and labels of the emitted records are, in the
    order of the objects, those of the objects that have before-tokens:
    the before-tokens with the object's bugType, then the after-tokens
    with NO_BUG; objects without before-tokens give nothing. *)
Theorem X6_records_follow_the_objects
    (Rng : Type) (random_split_fn : Rng -> Split * Rng)
    (PatchSet : string -> exn + list PatchedFile) (tokenize : string -> lexed)
    (seed : Rng) (json : list JsonData) :
  let run := JsonExtractor.extract random_split_fn PatchSet tokenize seed json in
  snd run = inr tt ->
  map (fun r => (raw_tokens r, raw_label r)) (emitted (trace (fst run)))
  = flat_map (ExtractorClosed.records_of PatchSet tokenize) json.
Proof.
  intros run. subst run. unfold JsonExtractor.extract.
  assert (H : forall (objects : list JsonData) (st : ExtractorState Rng),
    snd (JsonExtractor._raw_data_dict_generator random_split_fn PatchSet tokenize
           objects st) = inr tt ->
    map (fun r => (raw_tokens r, raw_label r))
        (emitted (trace (fst (JsonExtractor._raw_data_dict_generator
                                random_split_fn PatchSet tokenize objects st))))
    = map (fun r => (raw_tokens r, raw_label r)) (emitted (trace st))
      ++ flat_map (ExtractorClosed.records_of PatchSet tokenize) objects).
  { induction objects as [|json_data rest IH]; intros st.
    - simpl. now rewrite app_nil_r.
    - destruct (GeneratorFacts.generator_step PatchSet tokenize json_data)
        as [texts Hstep].
      rewrite Hstep. simpl flat_map.
      assert (Hrec : ExtractorClosed.records_of PatchSet tokenize json_data
                     = match ExtractorClosed.patch_tokens PatchSet tokenize
                               (fixPatch json_data) with
                       | inr (t :: source_tokens, target_tokens) =>
                           [(t :: source_tokens, bugType json_data);
                            (target_tokens, "NO_BUG")]
                       | _ => []
                       end) by reflexivity.
      rewrite Hrec. clear Hrec.
      destruct (ExtractorClosed.patch_tokens PatchSet tokenize (fixPatch json_data))
        as [e | [[|t source_tokens] target_tokens]].
      + simpl. discriminate.
      + intros Hend. rewrite (IH _ Hend).
        unfold JsonExtractor.with_effects. simpl.
        rewrite GeneratorFacts.emitted_app.
        destruct (GeneratorFacts.only_tokenized texts) as [-> _].
        now rewrite app_nil_r.
      + intros Hend. rewrite (IH _ Hend).
        unfold ExtractorClosed.yield_pair, JsonExtractor.with_effects. simpl.
        rewrite !GeneratorFacts.emitted_app.
        destruct (GeneratorFacts.only_tokenized texts) as [-> _].
        rewrite app_nil_r. simpl. rewrite map_app. simpl.
        rewrite <- app_assoc. reflexivity. }
  intros Hend. rewrite (H _ _ Hend). reflexivity.
Qed.

(** X6 at a file of four objects, two of which are skipped. *)
Lemma X6_witness_four_objects :
  map (fun r => (raw_tokens r, raw_label r))
      (emitted (trace (fst (Demo.extract 0
         [Demo.object_change; Demo.object_after_fails;
          Demo.object_before_fails; Demo.object_deletion]))))
  = [(Demo.tokens_a, "CHANGE_IDENTIFIER"); (Demo.tokens_b, "NO_BUG");
     (Demo.tokens_a, "DELETE_STATEMENT"); ([], "NO_BUG")].
Proof.
  exact (@X6_records_follow_the_objects Z Demo.random_split_fn Demo.PatchSet
           Demo.tokenize 0
           [Demo.object_change; Demo.object_after_fails;
            Demo.object_before_fails; Demo.object_deletion] eq_refl).
Defined.

(** X7. An object whose patch does not parse, or has no first hunk, ends
    the run: the generator raises at that object, keeps what the objects
    before it gave, and never looks at the objects after it. *)
Theorem X7_a_raising_object_ends_the_run
    (Rng : Type) (random_split_fn : Rng -> Split * Rng)
    (PatchSet : string -> exn + list PatchedFile) (tokenize : string -> lexed)
    (before after : list JsonData) (bad : JsonData) (e : exn)
    (st : ExtractorState Rng) :
  ExtractorClosed.patch_tokens PatchSet tokenize (fixPatch bad) = inl e ->
  let run := JsonExtractor._raw_data_dict_generator random_split_fn PatchSet
               tokenize (before ++ bad :: after) st in
  let run_before := JsonExtractor._raw_data_dict_generator random_split_fn PatchSet
                      tokenize before st in
  run = JsonExtractor._raw_data_dict_generator random_split_fn PatchSet
          tokenize (before ++ [bad]) st
  /\ (exists e', snd run = inl e')
  /\ (snd run_before = inr tt -> snd run = inl e)
  /\ emitted (trace (fst run)) = emitted (trace (fst run_before))
  /\ drawn (trace (fst run)) = drawn (trace (fst run_before)).
Proof.
  intros Hbad run run_before. subst run run_before.
  rewrite !GeneratorFacts.generator_app.
  destruct (JsonExtractor._raw_data_dict_generator random_split_fn PatchSet
              tokenize before st) as [st' [e0 | []]].
  - split; [reflexivity|]. split; [now exists e0|]. split; [discriminate|].
    split; reflexivity.
  - destruct (GeneratorFacts.generator_step PatchSet tokenize bad) as [texts Hstep].
    rewrite !Hstep, Hbad. simpl.
    split; [reflexivity|]. split; [now exists e|]. split; [reflexivity|].
    rewrite GeneratorFacts.emitted_app, GeneratorFacts.drawn_app.
    destruct (GeneratorFacts.only_tokenized texts) as [-> [-> _]].
    rewrite !app_nil_r. split; reflexivity.
Qed.

(** X7 at a file whose second object has an empty patch. *)
Lemma X7_witness_empty_patch :
  snd (Demo.extract 0 [Demo.object_change; {| fixPatch := ""; bugType := "X" |};
                       Demo.object_deletion])
  = inl IndexError.
Proof.
  exact (proj1 (proj2 (proj2
           (@X7_a_raising_object_ends_the_run Z Demo.random_split_fn Demo.PatchSet
              Demo.tokenize [Demo.object_change] [Demo.object_deletion]
              {| fixPatch := ""; bugType := "X" |} IndexError
              {| rng := 0; trace := [] |} eq_refl))) eq_refl).
Defined.

(** X8. Running the generator over the objects of two lists put end to end
    is running it over the first list and then, from the state that run
    left, over the second; when the first run raises, the second list is
    not run. *)
Theorem X8_generator_over_an_append
    (Rng : Type) (random_split_fn : Rng -> Split * Rng)
    (PatchSet : string -> exn + list PatchedFile) (tokenize : string -> lexed)
    (first_part second_part : list JsonData) (st : ExtractorState Rng) :
  JsonExtractor._raw_data_dict_generator random_split_fn PatchSet tokenize
    (first_part ++ second_part) st
  = match JsonExtractor._raw_data_dict_generator random_split_fn PatchSet
            tokenize first_part st with
    | (st', inl e) => (st', inl e)
    | (st', inr _) =>
        JsonExtractor._raw_data_dict_generator random_split_fn PatchSet
          tokenize second_part st'
    end.
Proof.
  apply GeneratorFacts.generator_app.
Qed.

Module SkipFacts.
Import JsonExtractor ExtractorClosed.

(** Two states that agree on the split generator, the records and the
    draws; they may differ in the texts handed to the tokenizer. *)
Lemma generator_without_skipped (Rng : Type) (f : Rng -> Split * Rng)
    (PatchSet : string -> exn + list PatchedFile) (tokenize : string -> lexed)
    (json : list JsonData) :
  forall st1 st2 : ExtractorState Rng,
    rng st1 = rng st2 ->
    emitted (trace st1) = emitted (trace st2) ->
    drawn (trace st1) = drawn (trace st2) ->
    let run1 := _raw_data_dict_generator f PatchSet tokenize json st1 in
    let run2 := _raw_data_dict_generator f PatchSet tokenize
                  (filter (fun o => negb (skipped PatchSet tokenize o)) json) st2 in
    rng (fst run1) = rng (fst run2)
    /\ emitted (trace (fst run1)) = emitted (trace (fst run2))
    /\ drawn (trace (fst run1)) = drawn (trace (fst run2))
    /\ snd run1 = snd run2.
Proof.
  induction json as [|json_data rest IH]; intros st1 st2 Hrng Hem Hdr.
  - simpl. auto.
  - destruct (GeneratorFacts.generator_step PatchSet tokenize json_data)
      as [texts Hstep].
    destruct (GeneratorFacts.only_tokenized texts) as [Hem0 [Hdr0 _]].
    simpl filter.
    assert (Hskip : skipped PatchSet tokenize json_data
                    = match patch_tokens PatchSet tokenize (fixPatch json_data) with
                      | inr ([], _) => true
                      | _ => false
                      end) by reflexivity.
    rewrite Hskip. clear Hskip. cbv zeta. rewrite Hstep.
    destruct (patch_tokens PatchSet tokenize (fixPatch json_data))
      as [e | [[|t source_tokens] target_tokens]] eqn:Htok; simpl negb; cbv iota.
    + rewrite Hstep. simpl.
      rewrite !GeneratorFacts.emitted_app, !GeneratorFacts.drawn_app.
      rewrite Hem0, Hdr0, !app_nil_r. auto.
    + apply IH; simpl; [assumption | |].
      * now rewrite GeneratorFacts.emitted_app, Hem0, app_nil_r.
      * now rewrite GeneratorFacts.drawn_app, Hdr0, app_nil_r.
    + rewrite Hstep.
      apply IH; simpl; rewrite ?Hrng; [reflexivity | |].
      * rewrite !GeneratorFacts.emitted_app. simpl.
        rewrite ?GeneratorFacts.emitted_app. now rewrite Hem.
      * rewrite !GeneratorFacts.drawn_app. simpl.
        rewrite ?GeneratorFacts.drawn_app. now rewrite Hdr.
Qed.

End SkipFacts.

(** X9. Objects whose patch gives no before-tokens leave no mark on the
    output: a file and the same file without these objects give the same
    records with the same splits, the same draws, the same final state of
    the split generator and the same end of the run. *)
Theorem X9_skipped_objects_leave_no_mark
    (Rng : Type) (random_split_fn : Rng -> Split * Rng)
    (PatchSet : string -> exn + list PatchedFile) (tokenize : string -> lexed)
    (seed : Rng) (json : list JsonData) :
  let run := JsonExtractor.extract random_split_fn PatchSet tokenize seed json in
  let run' := JsonExtractor.extract random_split_fn PatchSet tokenize seed
                (filter (fun o => negb (ExtractorClosed.skipped PatchSet tokenize o))
                        json) in
  emitted (trace (fst run)) = emitted (trace (fst run'))
  /\ drawn (trace (fst run)) = drawn (trace (fst run'))
  /\ rng (fst run) = rng (fst run')
  /\ snd run = snd run'.
Proof.
  intros run run'.
  destruct (SkipFacts.generator_without_skipped random_split_fn PatchSet tokenize
              json {| rng := seed; trace := [] |} {| rng := seed; trace := [] |}
              eq_refl eq_refl eq_refl) as [H1 [H2 [H3 H4]]].
  auto.
Qed.

(** ** The converter *)

Module ReturnFacts.
Import ManySStuBs4JDataset Closed.

Lemma filtered_cases (fs : list (GraphToOutputExample -> bool))
    (g : GraphToOutputExample) :
  match filtered fs g with
  | Some g' => g' = g /\ forallb (fun f => f g) fs = true
  | None => exists f, In f fs /\ f g = false
  end.
Proof.
  induction fs as [|f rest IH]; simpl.
  - auto.
  - destruct (f g) eqn:Hf.
    + destruct (filtered rest g) as [g'|].
      * destruct IH as [-> Hall]. auto.
      * destruct IH as [f' [Hin Hrej]]. exists f'. auto.
    + exists f. auto.
Qed.

End ReturnFacts.

(** X10. Whatever the converter returns went through validation: when it
    returns, [check_if_valid] was called on a graph and gave true; a
    returned example is that very graph, and every filter hook accepts
    it; a returned [None] means that some filter hook rejects that
    graph. *)
Theorem X10_returned_examples_are_valid_and_accepted
    (transformation_funcs : list (GraphToOutputExample -> GraphToOutputExample))
    (filter_funcs : list (GraphToOutputExample -> bool))
    (raw_data : RawData) (out : OutputExample) :
  let run := ManySStuBs4JDataset.convert transformation_funcs filter_funcs raw_data in
  snd run = inr out ->
  exists g : GraphToOutputExample,
    In (CallCheckIfValid g) (fst run)
    /\ Graph.check_if_valid g = true
    /\ match out_GraphToOutputExample out with
       | Some g' => g' = g /\ forallb (fun filter_fn => filter_fn g) filter_funcs = true
       | None => exists filter_fn, In filter_fn filter_funcs /\ filter_fn g = false
       end.
Proof.
  intros run.
  pose proof (HookFacts.convert_spec transformation_funcs filter_funcs raw_data) as Hc.
  simpl in Hc. fold run in Hc.
  set (g := Closed.transformed transformation_funcs
              (Closed.chain (raw_tokens raw_data) (raw_label raw_data))) in *.
  destruct (Graph.check_if_valid g) eqn:Hvalid; rewrite Hc; simpl.
  - intros H. injection H as <-. exists g.
    split; [apply in_or_app; right; left; reflexivity|].
    split; [exact Hvalid|]. simpl.
    apply ReturnFacts.filtered_cases.
  - discriminate.
Qed.

(** X10 at a three-token record with a filter that rejects it. *)
Lemma X10_witness_rejected :
  exists g : GraphToOutputExample,
    In (CallCheckIfValid g)
       (fst (ManySStuBs4JDataset.convert [] [Demo.at_most_two_nodes] Demo.raw_abc))
    /\ Graph.check_if_valid g = true
    /\ exists filter_fn, In filter_fn [Demo.at_most_two_nodes] /\ filter_fn g = false.
Proof.
  exact (@X10_returned_examples_are_valid_and_accepted [] [Demo.at_most_two_nodes]
           Demo.raw_abc
           {| out_split := validation; out_GraphToOutputExample := None |} eq_refl).
Defined.

(** ** The paths of the raw data *)

Module PathFacts.

Lemma os_path_join_relative (a b : string) :
  prefix "/" b = false ->
  prefix a (os_path_join a b) = true
  /\ exists pre : string, os_path_join a b = (pre ++ b)%string.
Proof.
  intros Hrel. unfold os_path_join. rewrite Hrel.
  destruct ((match a with EmptyString => true | _ => false end) || endswith_sep a).
  - split; [apply StringFacts.prefix_append | now exists a].
  - split; [apply StringFacts.prefix_append|].
    exists (a ++ "/")%string. now rewrite StringFacts.append_assoc.
Qed.

End PathFacts.

(** X11. For both variants of the dataset and every raw-data directory,
    [get_all_raw_data_paths] returns exactly one path; the path lies under
    the directory and ends in the file name that is the one key of the URL
    table [__init__] chose for that variant, so the file read is the file
    downloaded. *)
Theorem X11_raw_data_path_matches_the_url_table
    (raw_data_dir : string) (use_large_dataset : bool) :
  let self := Dataset.__init__ raw_data_dir use_large_dataset in
  exists (name : string) (entry : Dataset.UrlEntry),
    Dataset.urls self = [(name, entry)]
    /\ Dataset.get_all_raw_data_paths self = [os_path_join raw_data_dir name]
    /\ prefix raw_data_dir (os_path_join raw_data_dir name) = true
    /\ exists pre : string, os_path_join raw_data_dir name = (pre ++ name)%string.
Proof.
  intros self. destruct use_large_dataset; simpl.
  - eexists. eexists. split; [reflexivity|]. split; [reflexivity|].
    now apply PathFacts.os_path_join_relative.
  - eexists. eexists. split; [reflexivity|]. split; [reflexivity|].
    now apply PathFacts.os_path_join_relative.
Qed.

(** ** The extractor on dictionaries *)

Module JsonFileFacts.
Import JsonExtractor ExtractorClosed JsonFile.

(** [_patch_to_source_and_target_tokens] in any state, by what it does in
    the empty one. *)
Lemma tokens_of_run (PatchSet : string -> exn + list PatchedFile)
    (tokenize : string -> lexed) (patch_str : string)
    (Rng : Type) (st : ExtractorState Rng) :
  _patch_to_source_and_target_tokens PatchSet tokenize patch_str st
  = (with_effects st (map Tokenized (patch_texts PatchSet tokenize patch_str)),
     patch_tokens PatchSet tokenize patch_str).
Proof.
  destruct (ExtractorFacts.tokens_of_shape PatchSet tokenize patch_str)
    as [texts [res Hshape]].
  unfold patch_texts, patch_tokens. rewrite (Hshape unit), (Hshape Rng). simpl.
  now rewrite (proj2 (proj2 (GeneratorFacts.only_tokenized texts))).
Qed.

(** One step of the loop over dictionaries, on an object that has the key
    fixPatch: what its patch gives decides the step, and the key bugType
    is read after the first draw. *)
Lemma for_json_data_step (Rng : Type) (f : Rng -> Split * Rng)
    (PatchSet : string -> exn + list PatchedFile) (tokenize : string -> lexed)
    (json_data : JsonObject) (rest : list JsonObject) (patch_str : string)
    (st : ExtractorState Rng) :
  getitem json_data "fixPatch" = Some patch_str ->
  let st' := with_effects st
               (map Tokenized (patch_texts PatchSet tokenize patch_str)) in
  for_json_data f PatchSet tokenize (json_data :: rest) st
  = match patch_tokens PatchSet tokenize patch_str with
    | inl e => (st', inl (Raised e))
    | inr ([], _) => for_json_data f PatchSet tokenize rest st'
    | inr (t :: source_tokens, target_tokens) =>
        match getitem json_data "bugType" with
        | None =>
            ({| rng := snd (f (rng st'));
                trace := trace st' ++ [RandomSplit (fst (f (rng st')))] |},
             inl (KeyError "bugType"))
        | Some label =>
            for_json_data f PatchSet tokenize rest
              (yield_pair f st' (t :: source_tokens) target_tokens label)
        end
    end.
Proof.
  intros Hpatch st'. cbn [for_json_data].
  unfold bindF at 1. unfold subscript at 1. rewrite Hpatch. unfold retF at 1.
  unfold bindF at 1. unfold liftM at 1. rewrite tokens_of_run. fold st'.
  clearbody st'.
  destruct (patch_tokens PatchSet tokenize patch_str)
    as [e | [[|t source_tokens] target_tokens]]; [reflexivity | reflexivity |].
  unfold bindF at 1. unfold liftM at 1. unfold call_random_split_fn at 1.
  destruct (f (rng st')) as [s1 r1] eqn:Hf1. simpl fst. simpl snd.
  unfold bindF at 1. unfold subscript.
  destruct (getitem json_data "bugType") as [label|]; [|reflexivity].
  unfold retF, bindF, liftM, yield, effect, modify, call_random_split_fn,
    yield_pair. simpl. rewrite Hf1. simpl.
  destruct (f r1) as [s2 r2]. simpl.
  repeat rewrite <- app_assoc. reflexivity.
Qed.

Lemma as_record_items (json_data : JsonObject) (r : JsonData) :
  as_record json_data = Some r ->
  getitem json_data "fixPatch" = Some (fixPatch r)
  /\ getitem json_data "bugType" = Some (bugType r).
Proof.
  unfold as_record.
  destruct (getitem json_data "fixPatch") as [p|]; [|discriminate].
  destruct (getitem json_data "bugType") as [l|]; [|discriminate].
  intros H. injection H as <-. auto.
Qed.

(** On objects that have both keys the loop over dictionaries does what
    the generator does on the records. *)
Lemma for_json_data_records (Rng : Type) (f : Rng -> Split * Rng)
    (PatchSet : string -> exn + list PatchedFile) (tokenize : string -> lexed)
    (objects : list JsonObject) (records : list JsonData) :
  Forall2 (fun o r => as_record o = Some r) objects records ->
  forall st : ExtractorState Rng,
    for_json_data f PatchSet tokenize objects st
    = (fst (JsonExtractor._raw_data_dict_generator f PatchSet tokenize records st),
       raised (snd (JsonExtractor._raw_data_dict_generator f PatchSet tokenize
                      records st))).
Proof.
  induction 1 as [|o r objects records Hor _ IH]; intros st.
  - reflexivity.
  - destruct (as_record_items _ Hor) as [Hpatch Hlabel].
    rewrite (@for_json_data_step Rng f PatchSet tokenize o objects (fixPatch r) st Hpatch).
    rewrite Hlabel.
    pose proof (tokens_of_run PatchSet tokenize (fixPatch r) st) as Htok.
    destruct (patch_tokens PatchSet tokenize (fixPatch r))
      as [e | [[|t source_tokens] target_tokens]].
    + rewrite (ExtractorFacts.generator_raise f _ _ _ records _ Htok). reflexivity.
    + rewrite (ExtractorFacts.generator_continue f _ _ _ records _ Htok). apply IH.
    + rewrite (ExtractorFacts.generator_yield_twice f _ _ _ records _ Htok)
        by discriminate.
      apply IH.
Qed.

(** The loop over dictionaries, over two lists put end to end. *)
Lemma for_json_data_app (Rng : Type) (f : Rng -> Split * Rng)
    (PatchSet : string -> exn + list PatchedFile) (tokenize : string -> lexed)
    (first_part second_part : list JsonObject) :
  forall st : ExtractorState Rng,
    for_json_data f PatchSet tokenize (first_part ++ second_part) st
    = match for_json_data f PatchSet tokenize first_part st with
      | (st', inl e) => (st', inl e)
      | (st', inr _) => for_json_data f PatchSet tokenize second_part st'
      end.
Proof.
  induction first_part as [|o rest IH]; intros st.
  - reflexivity.
  - rewrite <- app_comm_cons.
    destruct (getitem o "fixPatch") as [patch_str|] eqn:Hpatch.
    + rewrite !(@for_json_data_step Rng f PatchSet tokenize o _ patch_str st Hpatch).
      destruct (patch_tokens PatchSet tokenize patch_str)
        as [e | [[|t source_tokens] target_tokens]];
        [reflexivity | apply IH |].
      destruct (getitem o "bugType"); [apply IH | reflexivity].
    + cbn [for_json_data]. unfold bindF, subscript.
      rewrite Hpatch. reflexivity.
Qed.

End JsonFileFacts.

(** X12. On a file that opens and loads, and whose objects all have the
    keys fixPatch and bugType, [process] has the effects of the generator
    on the corresponding records and ends as it ends: the same texts are
    tokenized, the same splits drawn, the same records yielded. *)
Theorem X12_process_runs_the_generator_on_the_objects
    (Rng : Type) (random_split_fn : Rng -> Split * Rng)
    (PatchSet : string -> exn + list PatchedFile) (tokenize : string -> lexed)
    (open_file : string -> failure + string)
    (json_load : string -> failure + list JsonObject)
    (file_path text : string) (objects : list JsonObject)
    (records : list JsonData) (st : ExtractorState Rng) :
  open_file file_path = inr text ->
  json_load text = inr objects ->
  Forall2 (fun o r => JsonFile.as_record o = Some r) objects records ->
  let run := JsonExtractor._raw_data_dict_generator random_split_fn PatchSet
               tokenize records st in
  JsonFile.process random_split_fn PatchSet tokenize open_file json_load
    file_path st
  = (fst run, JsonFile.raised (snd run)).
Proof.
  intros Hopen Hload Hobjects run.
  unfold JsonFile.process, JsonFile._raw_data_dict_generator, bindF, liftF.
  rewrite Hopen, Hload.
  apply JsonFileFacts.for_json_data_records. exact Hobjects.
Qed.

(** X12 at the file with two objects. *)
Lemma X12_witness_file :
  JsonFile.process Demo.random_split_fn Demo.PatchSet Demo.tokenize
    DemoFile.open_file DemoFile.json_load "raw_data/sstubs.json"
    {| rng := 0; trace := [] |}
  = (fst (Demo.extract 0 [Demo.object_change; Demo.object_deletion]), inr tt).
Proof.
  refine (@X12_process_runs_the_generator_on_the_objects Z Demo.random_split_fn
            Demo.PatchSet Demo.tokenize DemoFile.open_file DemoFile.json_load
            "raw_data/sstubs.json" DemoFile.file_text
            [Demo.dict_change; Demo.dict_deletion]
            [Demo.object_change; Demo.object_deletion]
            {| rng := 0; trace := [] |} _ _ _).
  - reflexivity.
  - reflexivity.
  - repeat constructor.
Defined.

(** X13. An object without the key fixPatch ends the run with
    [KeyError('fixPatch')] before anything is done for it: after objects
    that have both keys and on which the generator does not raise, the run
    stops in the state those objects left, with their records, and the
    objects after it are not looked at. *)
Theorem X13_missing_fixPatch_ends_the_run
    (Rng : Type) (random_split_fn : Rng -> Split * Rng)
    (PatchSet : string -> exn + list PatchedFile) (tokenize : string -> lexed)
    (before after : list JsonObject) (bad : JsonObject)
    (records : list JsonData) (st : ExtractorState Rng) :
  Forall2 (fun o r => JsonFile.as_record o = Some r) before records ->
  getitem bad "fixPatch" = None ->
  let run_before := JsonExtractor._raw_data_dict_generator random_split_fn
                      PatchSet tokenize records st in
  snd run_before = inr tt ->
  JsonFile.for_json_data random_split_fn PatchSet tokenize
    (before ++ bad :: after) st
  = (fst run_before, inl (KeyError "fixPatch")).
Proof.
  intros Hbefore Hbad run_before Hend.
  rewrite JsonFileFacts.for_json_data_app.
  rewrite (JsonFileFacts.for_json_data_records random_split_fn PatchSet tokenize
             Hbefore st).
  fold run_before. rewrite Hend. simpl.
  unfold bindF at 1. unfold subscript at 1. rewrite Hbad. reflexivity.
Qed.

(** X13 at a complete object followed by one without fixPatch. *)
Lemma X13_witness_no_fixPatch :
  JsonFile.for_json_data Demo.random_split_fn Demo.PatchSet Demo.tokenize
    ([Demo.dict_change] ++ Demo.dict_no_fixPatch :: [Demo.dict_change])
    {| rng := 0; trace := [] |}
  = (fst (Demo.extract 0 [Demo.object_change]), inl (KeyError "fixPatch")).
Proof.
  refine (@X13_missing_fixPatch_ends_the_run Z Demo.random_split_fn
            Demo.PatchSet Demo.tokenize [Demo.dict_change] [Demo.dict_change]
            Demo.dict_no_fixPatch [Demo.object_change]
            {| rng := 0; trace := [] |} _ _ _).
  - repeat constructor.
  - reflexivity.
  - reflexivity.
Defined.

(** X14. An object without the key bugType whose patch gives before-tokens
    costs one draw: the split for its first record is drawn before the
    label is looked up, so the run ends with [KeyError('bugType')] after
    exactly one more draw, and no record is yielded for the object. *)
Theorem X14_missing_bugType_is_found_after_one_draw
    (Rng : Type) (random_split_fn : Rng -> Split * Rng)
    (PatchSet : string -> exn + list PatchedFile) (tokenize : string -> lexed)
    (bad : JsonObject) (rest : list JsonObject) (patch_str : string)
    (t : Token) (source_tokens target_tokens : list Token)
    (st : ExtractorState Rng) :
  getitem bad "fixPatch" = Some patch_str ->
  getitem bad "bugType" = None ->
  ExtractorClosed.patch_tokens PatchSet tokenize patch_str
    = inr (t :: source_tokens, target_tokens) ->
  let run := JsonFile.for_json_data random_split_fn PatchSet tokenize
               (bad :: rest) st in
  snd run = inl (KeyError "bugType")
  /\ rng (fst run) = snd (random_split_fn (rng st))
  /\ drawn (trace (fst run)) = drawn (trace st) ++ [fst (random_split_fn (rng st))]
  /\ emitted (trace (fst run)) = emitted (trace st).
Proof.
  intros Hpatch Hlabel Htokens run. subst run.
  rewrite (@JsonFileFacts.for_json_data_step Rng random_split_fn PatchSet tokenize
             bad rest patch_str st Hpatch).
  rewrite Htokens, Hlabel. simpl.
  rewrite !GeneratorFacts.emitted_app, !GeneratorFacts.drawn_app.
  destruct (GeneratorFacts.only_tokenized
              (ExtractorClosed.patch_texts PatchSet tokenize patch_str))
    as [-> [-> _]].
  simpl. rewrite !app_nil_r. auto.
Qed.

(** X14 at an object that has only the key fixPatch. *)
Lemma X14_witness_no_bugType :
  snd (JsonFile.for_json_data Demo.random_split_fn Demo.PatchSet Demo.tokenize
         [Demo.dict_no_bugType; Demo.dict_change] {| rng := 0; trace := [] |})
  = inl (KeyError "bugType").
Proof.
  refine (proj1 (@X14_missing_bugType_is_found_after_one_draw Z
                   Demo.random_split_fn Demo.PatchSet Demo.tokenize
                   Demo.dict_no_bugType [Demo.dict_change] Demo.patch_change
                   ("Identifier", "a") [("Separator", ";")] Demo.tokens_b
                   {| rng := 0; trace := [] |} _ _ _)).
  - reflexivity.
  - reflexivity.
  - reflexivity.
Defined.

(** X15. The key bugType is read only for an object that gives records:
    when the patch of an object gives no before-tokens the object is
    skipped without a draw and without an error, whether it has the key
    bugType or not. *)
Theorem X15_missing_bugType_goes_unnoticed_on_a_skipped_object
    (Rng : Type) (random_split_fn : Rng -> Split * Rng)
    (PatchSet : string -> exn + list PatchedFile) (tokenize : string -> lexed)
    (json_data : JsonObject) (rest : list JsonObject) (patch_str : string)
    (target_tokens : list Token) (st : ExtractorState Rng) :
  getitem json_data "fixPatch" = Some patch_str ->
  ExtractorClosed.patch_tokens PatchSet tokenize patch_str
    = inr ([], target_tokens) ->
  JsonFile.for_json_data random_split_fn PatchSet tokenize (json_data :: rest) st
  = JsonFile.for_json_data random_split_fn PatchSet tokenize rest
      (JsonExtractor.with_effects st
         (map Tokenized (ExtractorClosed.patch_texts PatchSet tokenize patch_str))).
Proof.
  intros Hpatch Htokens.
  rewrite (@JsonFileFacts.for_json_data_step Rng random_split_fn PatchSet tokenize
             json_data rest patch_str st Hpatch).
  now rewrite Htokens.
Qed.

(** X15 at an object without bugType whose before-snippet does not lex. *)
Lemma X15_witness_skipped_without_bugType :
  JsonFile.for_json_data Demo.random_split_fn Demo.PatchSet Demo.tokenize
    [Demo.dict_no_bugType_before_fails] {| rng := 0; trace := [] |}
  = ({| rng := 0; trace := [Tokenized ("#" ++ Demo.newline)%string] |}, inr tt).
Proof.
  exact (@X15_missing_bugType_goes_unnoticed_on_a_skipped_object Z
           Demo.random_split_fn Demo.PatchSet Demo.tokenize
           Demo.dict_no_bugType_before_fails [] Demo.patch_before_fails []
           {| rng := 0; trace := [] |} eq_refl eq_refl).
Defined.
